(** * DFI signal dashboard: CSV monitor and portfolio logger

    A shallow embedding of the two browser scripts that implement the
    rebalance-file ingestion and the valuation logging of the signal
    dashboard:

    - [apps/signal-dashboard/scripts/csv-monitor.js] (class [CSVMonitor]);
    - [apps/signal-dashboard/monorepo/apps/signal-dashboard/scripts/portfolio-logger.js]
      (class [PortfolioLogger]).

    JavaScript strings are modelled as [string], read as sequences of code
    units below 256; JavaScript objects used as records of named fields
    are the finite maps [gmap string _] of their own properties; exceptions
    are an explicit [outcome]. *)

From Stdlib Require Import ZArith QArith Qabs Qround String Ascii List Lia.
From stdpp Require Import base option list strings gmap pretty.

Open Scope string_scope.
Open Scope Z_scope.

(** ** JavaScript string primitives used by the scripts *)

Module JS.

(** Result of a JavaScript call that may throw: [Throw msg] carries the
    [message] of the thrown [Error]. *)
Inductive outcome (A : Type) : Type :=
| Return (a : A)
| Throw (msg : string).
Arguments Return {A} a.
Arguments Throw {A} msg.

(** [\d] of a regular expression without the [u] flag: ASCII digits. *)
Definition is_digit (c : ascii) : bool :=
  let n := nat_of_ascii c in (48 <=? n)%nat && (n <=? 57)%nat.

(** White space and line terminators removed by [String.prototype.trim],
    among code units below 256: TAB, LF, VT, FF, CR, SP and NBSP. *)
Definition is_space (c : ascii) : bool :=
  let n := nat_of_ascii c in
  ((9 <=? n)%nat && (n <=? 13)%nat) || (n =? 32)%nat || (n =? 160)%nat.

(** [s.startsWith(p)], returning the rest of [s] after [p]. *)
Fixpoint strip_prefix (p s : string) : option string :=
  match p, s with
  | EmptyString, _ => Some s
  | String a p', String b s' =>
      if Ascii.eqb a b then strip_prefix p' s' else None
  | String _ _, EmptyString => None
  end.

(** [s.endsWith(suf)]: some suffix of [s] is [suf]. *)
Fixpoint endsWith (s suf : string) : bool :=
  String.eqb s suf ||
  match s with
  | EmptyString => false
  | String _ s' => endsWith s' suf
  end.

(** [s.split(c)] for a one-character separator: never the empty list. *)
Fixpoint split (c : ascii) (s : string) : list string :=
  match s with
  | EmptyString => [EmptyString]
  | String a s' =>
      if Ascii.eqb a c then EmptyString :: split c s'
      else match split c s' with
           | [] => [String a EmptyString]
           | w :: ws => String a w :: ws
           end
  end.

Fixpoint trimStart (s : string) : string :=
  match s with
  | EmptyString => EmptyString
  | String a s' => if is_space a then trimStart s' else s
  end.

Definition trimEnd (s : string) : string :=
  String.rev (trimStart (String.rev s)).

(** [s.trim()] *)
Definition trim (s : string) : string := trimEnd (trimStart s).

(** [s.replace(/[...]/g, '')] for a character class given as a predicate. *)
Fixpoint remove_chars (cls : ascii -> bool) (s : string) : string :=
  match s with
  | EmptyString => EmptyString
  | String a s' =>
      if cls a then remove_chars cls s' else String a (remove_chars cls s')
  end.

(** [s.includes(c)] for a one-character needle. *)
Fixpoint includes_char (c : ascii) (s : string) : bool :=
  match s with
  | EmptyString => false
  | String a s' => Ascii.eqb a c || includes_char c s'
  end.

(** [xs.join(sep)] on an array of strings. *)
Fixpoint join (sep : string) (xs : list string) : string :=
  match xs with
  | [] => EmptyString
  | [x] => x
  | x :: rest => x ++ sep ++ join sep rest
  end.

(** [obj[key] = value] for a string or a number [value], on an object made
    by [{}]: an own property is created or overwritten. The one exception
    is the key [__proto__], which the object inherits from
    [Object.prototype] as an accessor: its setter ignores a value that is
    neither an object nor null, and no own property is made. *)
Definition assign {A : Type} (key : string) (value : A) (obj : gmap string A)
  : gmap string A :=
  if String.eqb key "__proto__" then obj else <[key := value]> obj.

(** The double-quote character. *)
Definition dquote : ascii := ascii_of_nat 34.
(** Line feed. *)
Definition LF : ascii := ascii_of_nat 10.

End JS.
Import JS.

(** ** csv-monitor.js *)

Module CSVMonitor.

(** One entry of the file list served by [/api/csv-files]. *)
Record CSVFile := {
  filename : string;
  modified : string;
  size : string
}.

(** *** findLatestCSV *)

(** [n] characters matching [\d], returning the rest. *)
Fixpoint take_digits (n : nat) (s : string) : option string :=
  match n with
  | O => Some s
  | S n' =>
      match s with
      | String c s' => if is_digit c then take_digits n' s' else None
      | EmptyString => None
      end
  end.

(** The pattern [lpxd_external_advisors_DF_(\d{8}-\d{4})\.csv] matched at
    the start of [s]. *)
Definition pattern_at (s : string) : option string :=
  r ← strip_prefix "lpxd_external_advisors_DF_" s;
  r ← take_digits 8 r;
  r ← strip_prefix "-" r;
  r ← take_digits 4 r;
  strip_prefix ".csv" r.

(** [pattern.test(s)]: the pattern has no anchors, so it is searched at
    every position of [s]. *)
Fixpoint pattern_test (s : string) : bool :=
  bool_decide (is_Some (pattern_at s)) ||
  match s with
  | EmptyString => false
  | String _ s' => pattern_test s'
  end.

Definition findLatestCSV (csvFiles : list CSVFile)
  : outcome (option CSVFile) :=
  let validFiles := List.filter (fun file => pattern_test (filename file)) csvFiles in
  if (length validFiles =? 0)%nat then Return None
  else
    match List.find (fun file => endsWith (filename file) "2355.csv") validFiles with
    | Some preferredFile => Return (Some preferredFile)
    | None => Throw "2355.csv file is required but not found!"
    end.

(** *** parseCSV *)

(** [values[index] ? values[index].trim() : ''] *)
Definition cell (values : list string) (index : nat) : string :=
  match values !! index with
  | Some v => if String.eqb v "" then "" else trim v
  | None => ""
  end.

(** One data row: the own properties of the object [row] after
    [row[header.trim()] = ...] for each header in turn. A header that
    occurs twice keeps the cell of its last occurrence; a header that trims
    to [__proto__] sets nothing. *)
Definition parse_row (headers values : list string) : gmap string string :=
  foldl (fun row hi => assign (trim hi.2) (cell values hi.1) row) ∅
        (imap pair headers).

Definition parseCSV (csvText : string) : list (gmap string string) :=
  let lines := split LF (trim csvText) in
  let headers := split "," (hd "" lines) in
  map (fun line => parse_row headers (split "," line)) (tl lines).

(** *** The network and the page, as seen by the monitor *)

(** Outcome of [await fetch(url)] followed by reading the body:
    the promise rejects, or the response has [ok] false, or the body is
    read. *)
Inductive fetched (A : Type) : Type :=
| FetchThrows (msg : string)
| NotOk
| Ok (body : A).
Arguments FetchThrows {A} msg.
Arguments NotOk {A}.
Arguments Ok {A} body.

Record Network := {
  (** [GET /api/csv-files], the [files] property of the JSON body *)
  csvFilesResp : fetched (option (list CSVFile));
  (** [HEAD] of the local fallback file, its [content-length] header *)
  localHead : fetched (option string);
  (** [new Date().toISOString()] at the time of the call *)
  nowISO : string;
  (** [GET /api/csv-content/<name>], the [content] property of the body *)
  serverContent : string -> fetched (option string);
  (** [GET <name>] relative to the page, the body text *)
  localFile : string -> fetched string
}.

(** What one call makes observable outside the monitor object. Console
    output is diagnostic only and is left out. *)
Inductive event : Type :=
| StatusBar (csvFilename : string)
| Rebalance (newPortfolioData : list (gmap string string)) (csvFilename : string)
| Notification (message type : string).

(** The function installed by [setOnRebalance]; it may throw. *)
Definition callback : Type :=
  list (gmap string string) -> string -> outcome unit.

Record state := {
  currentCSV : option string;
  lastModified : option string;
  checkInterval : Z;
  isMonitoring : bool;
  onRebalanceCallback : option callback;
  csvReleaseWindow : Q * Q;
  (** period of the timer installed by [setInterval], if any *)
  monitorInterval : option Z
}.

Definition constructor : state := {|
  currentCSV := None;
  lastModified := None;
  checkInterval := 30000;
  isMonitoring := false;
  onRebalanceCallback := None;
  csvReleaseWindow := (0%Q, (1 # 2)%Q);
  monitorInterval := None
|}.

Definition setOnRebalance (cb : callback) (st : state) : state := {|
  currentCSV := currentCSV st;
  lastModified := lastModified st;
  checkInterval := checkInterval st;
  isMonitoring := isMonitoring st;
  onRebalanceCallback := Some cb;
  csvReleaseWindow := csvReleaseWindow st;
  monitorInterval := monitorInterval st
|}.

Definition track (name stamp : string) (st : state) : state := {|
  currentCSV := Some name;
  lastModified := Some stamp;
  checkInterval := checkInterval st;
  isMonitoring := isMonitoring st;
  onRebalanceCallback := onRebalanceCallback st;
  csvReleaseWindow := csvReleaseWindow st;
  monitorInterval := monitorInterval st
|}.

(** *** getCSVFiles *)

Definition getCSVFiles (net : Network) : list CSVFile :=
  match csvFilesResp net with
  | Ok files => default [] files
  | NotOk => []
  | FetchThrows _ =>
      match localHead net with
      | Ok len =>
          [ {| filename := "lpxd_external_advisors_DF_20250916-0806.csv";
               modified := nowISO net;
               size := match len with
                       | Some l => if String.eqb l "" then "0" else l
                       | None => "0"
                       end |} ]
      | _ => []
      end
  end.

(** *** triggerRebalancing *)

(** The text the rebalancing works on: the server's copy when it is there
    and not empty, else the local file; [Throw] when neither loads. *)
Definition load_csv (net : Network) (csvFilename : string) : outcome string :=
  let csvText :=
    match serverContent net csvFilename with
    | Ok content => content
    | _ => None
    end in
  match csvText with
  | Some text =>
      if String.eqb text "" then
        match localFile net csvFilename with
        | FetchThrows msg => Throw msg
        | NotOk => Throw ("Failed to load " ++ csvFilename)
        | Ok body => Return body
        end
      else Return text
  | None =>
      match localFile net csvFilename with
      | FetchThrows msg => Throw msg
      | NotOk => Throw ("Failed to load " ++ csvFilename)
      | Ok body => Return body
      end
  end.

Definition success_note (n : nat) : event :=
  Notification ("Portfolio rebalanced with " ++ pretty n ++ " positions") "success".

Definition failure_note (msg : string) : event :=
  Notification ("Rebalancing failed: " ++ msg) "error".

Definition triggerRebalancing (net : Network) (cb : option callback)
    (csvFilename : string) : list event :=
  StatusBar csvFilename ::
  match load_csv net csvFilename with
  | Throw msg => [failure_note msg]
  | Return csvText =>
      let newPortfolioData := parseCSV csvText in
      match cb with
      | None => [success_note (length newPortfolioData)]
      | Some f =>
          Rebalance newPortfolioData csvFilename ::
          match f newPortfolioData csvFilename with
          | Return _ => [success_note (length newPortfolioData)]
          | Throw msg => [failure_note msg]
          end
      end
  end.

(** *** checkForNewCSV *)

(** [this.currentCSV !== latestCSV.filename || this.lastModified !== latestCSV.modified] *)
Definition is_new (st : state) (latestCSV : CSVFile) : bool :=
  negb (bool_decide (currentCSV st = Some (filename latestCSV))) ||
  negb (bool_decide (lastModified st = Some (modified latestCSV))).

(** The body of [checkForNewCSV] once the file list is known. *)
Definition check_files (net : Network) (st : state) (csvFiles : list CSVFile)
  : state * list event :=
  if (length csvFiles =? 0)%nat then (st, [])
  else
    match findLatestCSV csvFiles with
    | Throw _ => (st, [])
    | Return None => (st, [])
    | Return (Some latestCSV) =>
        if is_new st latestCSV then
          let st' := track (filename latestCSV) (modified latestCSV) st in
          (st', triggerRebalancing net (onRebalanceCallback st') (filename latestCSV))
        else (st, [])
    end.

Definition checkForNewCSV (net : Network) (st : state) : state * list event :=
  check_files net st (getCSVFiles net).

(** *** updateCheckInterval *)

(** [currentHour + currentMinute / 60.0]. The value is kept exact: the
    double computed by the script compares with 0 and 0.5 as the exact
    value does, since 0.5 is a double and rounding is monotone. *)
Definition currentTime (currentHour currentMinute : Z) : Q :=
  (inject_Z currentHour + inject_Z currentMinute / 60)%Q.

Definition inReleaseWindow (st : state) (currentHour currentMinute : Z) : bool :=
  Qle_bool (csvReleaseWindow st).1 (currentTime currentHour currentMinute) &&
  Qle_bool (currentTime currentHour currentMinute) (csvReleaseWindow st).2.

Definition updateCheckInterval (st : state) (currentHour currentMinute : Z) : state :=
  let newInterval :=
    if inReleaseWindow st currentHour currentMinute then 10000 else 60000 in
  if negb (newInterval =? checkInterval st) then {|
    currentCSV := currentCSV st;
    lastModified := lastModified st;
    checkInterval := newInterval;
    isMonitoring := isMonitoring st;
    onRebalanceCallback := onRebalanceCallback st;
    csvReleaseWindow := csvReleaseWindow st;
    monitorInterval :=
      if isMonitoring st then Some newInterval else monitorInterval st
  |}
  else st.

(** *** getCurrentCSV *)

(** [{ filename: this.currentCSV, lastModified: this.lastModified }] *)
Definition getCurrentCSV (st : state) : option string * option string :=
  (currentCSV st, lastModified st).

(** *** startMonitoring, stopMonitoring and the timer *)

Definition set_monitoring (on : bool) (timer : option Z) (st : state) : state := {|
  currentCSV := currentCSV st;
  lastModified := lastModified st;
  checkInterval := checkInterval st;
  isMonitoring := on;
  onRebalanceCallback := onRebalanceCallback st;
  csvReleaseWindow := csvReleaseWindow st;
  monitorInterval := timer
|}.

(** The first check is started and not awaited. It touches neither the
    flag, nor the interval, nor the timer, so that it is run here before
    the timer is installed. *)
Definition startMonitoring (net : Network) (st : state) : state * list event :=
  if isMonitoring st then (st, [])
  else
    let checked := checkForNewCSV net (set_monitoring true (monitorInterval st) st) in
    (set_monitoring true (Some (checkInterval st)) checked.1, checked.2).

Definition stopMonitoring (st : state) : state :=
  if isMonitoring st then set_monitoring false None st else st.

(** What the timer runs at each period: a check, then the update of the
    interval at the time of day read then. *)
Definition tick (net : Network) (currentHour currentMinute : Z) (st : state)
  : state * list event :=
  let checked := checkForNewCSV net st in
  (updateCheckInterval checked.1 currentHour currentMinute, checked.2).

End CSVMonitor.

(** ** portfolio-logger.js *)

Module PortfolioLogger.

(** *** JavaScript numbers and dates

    The logger reads numbers with [parseFloat], adds, multiplies and
    divides them, and prints them. The arithmetic of doubles is taken as
    an interface: every result below holds for each implementation of
    it, IEEE-754 included. *)
Class JSNumber := {
  num : Type;
  (** the Number value of a decimal literal *)
  lit : Q -> num;
  (** [parseFloat(s)] *)
  parseFloat : string -> num;
  (** the comparison of two numbers; [None] when one of them is NaN *)
  ncompare : num -> num -> option comparison;
  add : num -> num -> num;
  mul : num -> num -> num;
  div : num -> num -> num;
  (** [Math.abs(x)] *)
  nabs : num -> num;
  (** [x.toFixed(2)] *)
  toFixed2 : num -> string;
  (** [String(x)] *)
  toString : num -> string
}.

Class JSDate := {
  (** [new Date(ms).toISOString()] *)
  toISOString : Z -> string;
  (** [new Date(ms).toLocaleString('en-GB', {timeZone: 'Europe/Paris',
      hour12: false, hour: '2-digit', minute: '2-digit', second: '2-digit'})] *)
  toParisTime : Z -> string
}.

(** Reading dates back, for [getRecentLogs]. *)
Class JSDateParse := {
  (** the time value of [new Date(s)], [None] for an invalid date *)
  parseDate : string -> option Z;
  (** the time value of [d] after [d.setDate(d.getDate() - days)], in the
      time zone of the browser *)
  daysBefore : Z -> Z -> Z
}.

Section Logger.
Context {N : JSNumber} {D : JSDate}.
Context {P : JSDateParse}.

(** [x > y] *)
Definition gt (x y : num) : bool :=
  match ncompare x y with Some Gt => true | _ => false end.

(** [x < y] *)
Definition lt (x y : num) : bool :=
  match ncompare x y with Some Lt => true | _ => false end.

(** A number is falsy when it is NaN, [0] or [-0]. *)
Definition truthy (x : num) : bool :=
  match ncompare x (lit 0) with
  | Some Lt | Some Gt => true
  | _ => false
  end.

(** [x || 0] *)
Definition or0 (x : num) : num := if truthy x then x else lit 0.

(** The values stored in the logged object. *)
Inductive jsval : Type :=
| VUndefined
| VString (s : string)
| VNumber (n : num).

(** What the logger reads from the page it runs in. *)
Record Page := {
  (** [document.getElementById(id).textContent], for the ids present *)
  elements : gmap string string;
  (** [window.cumulativePnL] *)
  cumulativePnL : option num;
  (** whether [window.addPortfolioValueDataPoint] is installed *)
  addPortfolioValueDataPoint : bool;
  (** the global [portfolioData] the dashboard declares, [None] when it is
      null or undefined: rows as [parseCSV] builds them *)
  portfolioData : option (list (gmap string string))
}.

Definition logFileName : string := "portfolio_daily_log.csv".

Definition logHeaders : list string :=
  [ "timestamp"; "date"; "time_utc"; "time_paris"; "csv_filename";
    "action"; "portfolio_value"; "daily_pnl"; "daily_pnl_percent";
    "cumulative_pnl"; "total_positions"; "long_positions";
    "short_positions"; "long_notional"; "short_notional";
    "total_notional_at_entry"; "gross_exposure"; "net_exposure";
    "top_long_symbol"; "top_long_weight"; "top_short_symbol";
    "top_short_weight"; "hit_rate_estimate"; "avg_win"; "avg_loss";
    "reliability_ratio" ].

Definition is_dollar_comma (c : ascii) : bool :=
  Ascii.eqb c "$" || Ascii.eqb c ",".

Definition is_percent_comma (c : ascii) : bool :=
  Ascii.eqb c "%" || Ascii.eqb c ",".

(** The shared shape of the three element readers:
    [element ? parseFloat(element.textContent.replace(cls, '')) || 0 : 0] *)
Definition read_element (cls : ascii -> bool) (id : string) (page : Page) : num :=
  match elements page !! id with
  | Some textContent => or0 (parseFloat (remove_chars cls textContent))
  | None => lit 0
  end.

Definition getPortfolioValue (page : Page) : num :=
  read_element is_dollar_comma "portfolio-value" page.

Definition getDailyPnL (page : Page) : num :=
  read_element is_dollar_comma "daily-pnl" page.

Definition getDailyPnLPercent (page : Page) : num :=
  read_element is_percent_comma "pnl-percent" page.

Definition getCumulativePnL (page : Page) : num :=
  match cumulativePnL page with
  | Some v => or0 v
  | None => lit 0
  end.

Definition getTotalNotionalData (page : Page) : num * num :=
  (read_element is_dollar_comma "total-long-notional" page,
   read_element is_dollar_comma "total-short-notional" page).

(** [parseFloat(position.key)]: an absent property reads [undefined],
    which [parseFloat] turns into the string [undefined]. *)
Definition parseField (position : gmap string string) (key : string) : num :=
  parseFloat (default "undefined" (position !! key)).

Inductive Side : Type := LONG | SHORT.

(** [parseFloat(position.target_contracts) > 0 ? 'LONG' : 'SHORT'] *)
Definition side_of (position : gmap string string) : Side :=
  if gt (parseField position "target_contracts") (lit 0) then LONG else SHORT.

Record PositionCounts := {
  total : nat;
  long : nat;
  short : nat;
  longNotional : num;
  shortNotional : num
}.

(** The four counters of [getPositionCounts] after one more position. *)
Definition count_position (acc : nat * nat * num * num)
    (position : gmap string string) : nat * nat * num * num :=
  let '(longCount, shortCount, longN, shortN) := acc in
  let notional := parseField position "target_notional" in
  match side_of position with
  | LONG => (S longCount, shortCount, add longN notional, shortN)
  | SHORT => (longCount, S shortCount, longN, add shortN (nabs notional))
  end.

Definition getPositionCounts (page : Page) : PositionCounts :=
  match portfolioData page with
  | None | Some [] =>
      {| total := 0; long := 0; short := 0;
         longNotional := lit 0; shortNotional := lit 0 |}
  | Some positions =>
      let '(longCount, shortCount, longN, shortN) :=
        foldl count_position (O, O, lit 0, lit 0) positions in
      {| total := longCount + shortCount; long := longCount;
         short := shortCount; longNotional := longN;
         shortNotional := shortN |}
  end.

(** [(gross, net)] *)
Definition getExposureData (page : Page) : num * num :=
  match portfolioData page with
  | None | Some [] => (lit 0, lit 0)
  | Some positions =>
      foldl (fun acc position =>
               let notional := parseField position "target_notional" in
               (add acc.1 (nabs notional), add acc.2 notional))
            (lit 0, lit 0) positions
  end.

(** [position.ticker || position.ric || position.internal_code] *)
Definition symbol_of (position : gmap string string) : jsval :=
  let truthy_str o :=
    match o with Some s => negb (String.eqb s "") | None => false end in
  let as_val o :=
    match o with Some s => VString s | None => VUndefined end in
  if truthy_str (position !! "ticker") then as_val (position !! "ticker")
  else if truthy_str (position !! "ric") then as_val (position !! "ric")
  else as_val (position !! "internal_code").

(** [((topLong.symbol, topLong.weight), (topShort.symbol, topShort.weight))] *)
Definition getTopPositions (page : Page) : (jsval * num) * (jsval * num) :=
  let none := (VString "N/A", lit 0) in
  match portfolioData page with
  | None | Some [] => (none, none)
  | Some positions =>
      foldl (fun acc position =>
               let symbol := symbol_of position in
               let notional := parseField position "target_notional" in
               let weight := mul (div notional (lit 1000000)) (lit 100) in
               match side_of position with
               | LONG =>
                   if gt (nabs weight) (nabs acc.1.2)
                   then ((symbol, weight), acc.2) else acc
               | SHORT =>
                   if gt (nabs weight) (nabs acc.2.2)
                   then (acc.1, (symbol, weight)) else acc
               end)
            (none, none) positions
  end.

Record PerformanceMetrics := {
  hitRate : string;
  avgWin : string;
  avgLoss : string;
  reliability : string
}.

Definition getPerformanceMetrics (page : Page) : PerformanceMetrics :=
  let dailyPnL := getDailyPnL page in
  let hit := if gt dailyPnL (lit 0) then lit (6 # 10) else lit (4 # 10) in
  let win := if gt dailyPnL (lit 0) then mul (nabs dailyPnL) (lit (12 # 10))
             else mul (nabs dailyPnL) (lit (8 # 10)) in
  let loss := if lt dailyPnL (lit 0) then mul (nabs dailyPnL) (lit (12 # 10))
              else mul (nabs dailyPnL) (lit (8 # 10)) in
  let rel := if gt loss (lit 0) then div win loss else lit 1 in
  {| hitRate := toFixed2 (mul hit (lit 100));
     avgWin := toFixed2 win;
     avgLoss := toFixed2 loss;
     reliability := toFixed2 rel |}.

(** *** gatherPortfolioData

    [now] is the value of [new Date()] read at the start of the call,
    in milliseconds since the epoch. *)
Definition gatherPortfolioData (page : Page) (now : Z)
    (csvFilename action : string) : gmap string jsval :=
  let timestamp := toISOString now in
  let date := hd "" (split "T" (toISOString now)) in
  let timeUTC := String.substring 11 8 (toISOString now) in
  let timeParis := toParisTime now in
  let portfolioValue := getPortfolioValue page in
  let dailyPnL := getDailyPnL page in
  let dailyPnLPercent := getDailyPnLPercent page in
  let cumulative := getCumulativePnL page in
  let positionCounts := getPositionCounts page in
  let exposureData := getExposureData page in
  let topPositions := getTopPositions page in
  let performanceMetrics := getPerformanceMetrics page in
  let totalNotionalData := getTotalNotionalData page in
  let count (n : nat) := VNumber (lit (inject_Z (Z.of_nat n))) in
  list_to_map
    [ ("timestamp", VString timestamp);
      ("date", VString date);
      ("time_utc", VString timeUTC);
      ("time_paris", VString timeParis);
      ("csv_filename", VString csvFilename);
      ("action", VString action);
      ("portfolio_value", VNumber portfolioValue);
      ("daily_pnl", VNumber dailyPnL);
      ("daily_pnl_percent", VNumber dailyPnLPercent);
      ("cumulative_pnl", VNumber cumulative);
      ("total_positions", count (total positionCounts));
      ("long_positions", count (long positionCounts));
      ("short_positions", count (short positionCounts));
      ("long_notional", VNumber (longNotional positionCounts));
      ("short_notional", VNumber (shortNotional positionCounts));
      ("total_notional_at_entry",
         VNumber (add totalNotionalData.1 totalNotionalData.2));
      ("gross_exposure", VNumber exposureData.1);
      ("net_exposure", VNumber exposureData.2);
      ("top_long_symbol", topPositions.1.1);
      ("top_long_weight", VNumber topPositions.1.2);
      ("top_short_symbol", topPositions.2.1);
      ("top_short_weight", VNumber topPositions.2.2);
      ("hit_rate_estimate", VString (hitRate performanceMetrics));
      ("avg_win", VString (avgWin performanceMetrics));
      ("avg_loss", VString (avgLoss performanceMetrics));
      ("reliability_ratio", VString (reliability performanceMetrics)) ].

(** *** The console, the chart and the server-side log file *)

Inductive console_entry : Type :=
| Say (message : string)
(** [console.log('CSV Row:', row)] *)
| Row (row : string)
(** [console.log('Portfolio Data:', logData)] *)
| Data (logData : gmap string jsval).

Record World := {
  console : list console_entry;
  (** calls of [window.addPortfolioValueDataPoint(date, value)] *)
  chartPoints : list (jsval * jsval);
  (** the body served for [fetch(logFileName)], when there is one *)
  serverLog : option string
}.

Definition say (e : console_entry) (w : World) : World :=
  {| console := console w ++ [e];
     chartPoints := chartPoints w;
     serverLog := serverLog w |}.

Definition plot (date value : jsval) (w : World) : World :=
  {| console := console w;
     chartPoints := chartPoints w ++ [(date, value)];
     serverLog := serverLog w |}.

(** [getLogContent] *)
Definition getLogContent (w : World) : option string := serverLog w.

(** [createLogFile]: the headers are printed, no file is made. *)
Definition createLogFile (w : World) : World :=
  say (Say ("File should be created server-side: " ++ logFileName))
    (say (Say ("Headers: " ++ join "," logHeaders ++ String LF ""))
       (say (Say "Portfolio log file headers (ready for server-side CSV):") w)).

(** [constructor] with [initializeLogFile] *)
Definition constructor (w : World) : World :=
  match serverLog w with
  | Some _ => w
  | None => createLogFile w
  end.

(** *** appendToLog *)

(** The replacement applied to a quoted cell: every double quote of
    [value] is doubled. *)
Fixpoint double_quotes (s : string) : string :=
  match s with
  | EmptyString => EmptyString
  | String a s' =>
      if Ascii.eqb a dquote
      then String dquote (String dquote (double_quotes s'))
      else String a (double_quotes s')
  end.

(** The text of one cell of the row: [logData[header] || ''], quoted
    when it is a string with a comma or a quote, then converted by
    [join]. *)
Definition csv_cell (logData : gmap string jsval) (header : string) : string :=
  match logData !! header with
  | Some (VString s) =>
      if includes_char "," s || includes_char dquote s
      then String dquote (double_quotes s) ++ String dquote ""
      else s
  | Some (VNumber n) => if truthy n then toString n else ""
  | Some VUndefined | None => ""
  end.

Definition csv_row (logData : gmap string jsval) : string :=
  join "," (map (csv_cell logData) logHeaders) ++ String LF "".

Definition appendToLog (logData : gmap string jsval) (w : World) : World :=
  say (Data logData)
    (say (Row (csv_row logData))
       (say (Say "Portfolio data logged (ready for server-side CSV file):") w)).

(** *** logPreExecution and logPostExecution *)

Definition logPreExecution (page : Page) (now : Z) (csvFilename : string)
    (w : World) : World :=
  let w := say (Say "Logging pre-execution portfolio data...") w in
  let logData := gatherPortfolioData page now csvFilename "pre_execution" in
  let w := appendToLog logData w in
  say (Say "Pre-execution data logged") w.

Definition truthy_val (v : jsval) : bool :=
  match v with
  | VUndefined => false
  | VString s => negb (String.eqb s "")
  | VNumber n => truthy n
  end.

Definition logPostExecution (page : Page) (now : Z) (csvFilename : string)
    (w : World) : World :=
  let w := say (Say "Logging post-execution portfolio data...") w in
  let logData := gatherPortfolioData page now csvFilename "post_execution" in
  let w := appendToLog logData w in
  let w :=
    if addPortfolioValueDataPoint page &&
       truthy_val (default VUndefined (logData !! "portfolio_value"))
    then plot (default VUndefined (logData !! "date"))
              (default VUndefined (logData !! "portfolio_value")) w
    else w in
  say (Say "Post-execution data logged") w.

(** *** Successive logging cycles *)

Inductive Action : Type := PreExecution | PostExecution.

Record Cycle := {
  action : Action;
  (** the clock reading of the cycle *)
  clock : Z;
  (** the page as it is during the cycle *)
  page : Page;
  csv : string
}.

Definition run_cycle (w : World) (c : Cycle) : World :=
  match action c with
  | PreExecution => logPreExecution (page c) (clock c) (csv c) w
  | PostExecution => logPostExecution (page c) (clock c) (csv c) w
  end.

Definition run (cycles : list Cycle) (w : World) : World :=
  foldl run_cycle w cycles.

(** The records and the rows printed so far, in order. *)
Definition records (w : World) : list (gmap string jsval) :=
  omap (fun e => match e with Data d => Some d | _ => None end) (console w).

Definition rows (w : World) : list string :=
  omap (fun e => match e with Row r => Some r | _ => None end) (console w).

Definition timestamp_of (logData : gmap string jsval) : jsval :=
  default VUndefined (logData !! "timestamp").

(** *** getRecentLogs *)

(** One entry read back from the log: the own properties of [entry] after
    [entry[header] = values[index] || ''] for each header in turn, with
    neither the header nor the cell trimmed. *)
Definition log_entry (headers values : list string) : gmap string string :=
  foldl (fun entry hi => assign hi.2 (default "" (values !! hi.1)) entry) ∅
        (imap pair headers).

(** The entries of a log text: the first line names the fields. *)
Definition log_entries (content : string) : list (gmap string string) :=
  let lines := split LF (trim content) in
  let headers := split "," (hd "" lines) in
  map (fun line => log_entry headers (split "," line)) (tl lines).

(** [new Date(entry.date) >= cutoffDate]: false for an entry without a date
    and for a date that does not parse. *)
Definition is_recent (cutoff : Z) (entry : gmap string string) : bool :=
  match entry !! "date" with
  | Some date =>
      match parseDate date with
      | Some t => cutoff <=? t
      | None => false
      end
  | None => false
  end.

(** [now] is the clock reading at the call, [days] the argument, 7 when it
    is left out. *)
Definition getRecentLogs (w : World) (now : Z) (days : Z)
  : list (gmap string string) :=
  match getLogContent w with
  | None => []
  | Some content =>
      if String.eqb content "" then []
      else List.filter (is_recent (daysBefore now days)) (log_entries content)
  end.

End Logger.
End PortfolioLogger.

(** ** An executable model of numbers and dates

    Finite numbers are exact rationals, so that the logger can be run on
    concrete pages. The model agrees with doubles wherever no rounding
    takes place; it has one zero, prints finite values in plain decimal
    notation, and covers the years 0000 to 9999 with the daylight-saving
    rule in force in Paris since 1996. *)

Module Exact.
Import PortfolioLogger.

Inductive dnum : Type :=
| DNaN
| DInf (negative : bool)
| DFin (q : Q).

Definition dlit (q : Q) : dnum := DFin (Qred q).

Definition dcompare (x y : dnum) : option comparison :=
  match x, y with
  | DNaN, _ | _, DNaN => None
  | DInf a, DInf b =>
      Some (if a then (if b then Eq else Lt) else (if b then Gt else Eq))
  | DInf a, DFin _ => Some (if a then Lt else Gt)
  | DFin _, DInf b => Some (if b then Gt else Lt)
  | DFin p, DFin q => Some (p ?= q)%Q
  end.

Definition is_zero (q : Q) : bool := Qnum q =? 0.
Definition is_neg (q : Q) : bool := Qnum q <? 0.

Definition dadd (x y : dnum) : dnum :=
  match x, y with
  | DNaN, _ | _, DNaN => DNaN
  | DInf a, DInf b => if Bool.eqb a b then DInf a else DNaN
  | DInf a, DFin _ | DFin _, DInf a => DInf a
  | DFin p, DFin q => DFin (Qred (p + q))
  end.

Definition dmul (x y : dnum) : dnum :=
  match x, y with
  | DNaN, _ | _, DNaN => DNaN
  | DInf a, DInf b => DInf (xorb a b)
  | DInf a, DFin q | DFin q, DInf a =>
      if is_zero q then DNaN else DInf (xorb a (is_neg q))
  | DFin p, DFin q => DFin (Qred (p * q))
  end.

Definition ddiv (x y : dnum) : dnum :=
  match x, y with
  | DNaN, _ | _, DNaN => DNaN
  | DInf _, DInf _ => DNaN
  | DInf a, DFin q => DInf (xorb a (is_neg q))
  | DFin _, DInf _ => DFin 0
  | DFin p, DFin q =>
      if is_zero q then (if is_zero p then DNaN else DInf (is_neg p))
      else DFin (Qred (p / q))
  end.

Definition dabs (x : dnum) : dnum :=
  match x with
  | DNaN => DNaN
  | DInf _ => DInf false
  | DFin q => DFin (Qred (Qabs q))
  end.

(** *** parseFloat: the longest prefix that is a decimal literal *)

Definition digit_value (c : ascii) : Z := Z.of_nat (nat_of_ascii c) - 48.

(** Reads digits after the [count] already read into [acc]. *)
Fixpoint read_digits (s : string) (acc : Z) (count : nat) : Z * nat * string :=
  match s with
  | String c s' =>
      if is_digit c then read_digits s' (10 * acc + digit_value c) (S count)
      else (acc, count, s)
  | EmptyString => (acc, count, s)
  end.

Definition read_sign (s : string) : bool * string :=
  match s with
  | String c s' =>
      if Ascii.eqb c "-" then (true, s')
      else if Ascii.eqb c "+" then (false, s')
      else (false, s)
  | EmptyString => (false, s)
  end.

(** The exponent part [e], [e+] or [e-] followed by digits, 0 when there is
    none. *)
Definition read_exponent (s : string) : Z :=
  match s with
  | String c s' =>
      if Ascii.eqb c "e" || Ascii.eqb c "E" then
        let '(neg, r) := read_sign s' in
        let '(v, n, _) := read_digits r 0 0 in
        if (n =? 0)%nat then 0 else if neg then - v else v
      else 0
  | EmptyString => 0
  end.

Definition pow10 (k : Z) : Q :=
  if 0 <=? k then inject_Z (10 ^ k) else (1 # Z.to_pos (10 ^ (- k)))%Q.

Definition dparseFloat (s : string) : dnum :=
  let '(neg, r) := read_sign (trimStart s) in
  match strip_prefix "Infinity" r with
  | Some _ => DInf neg
  | None =>
      let '(i, ni, r1) := read_digits r 0 0 in
      let '(m, nf, r2) :=
        match r1 with
        | String c r' =>
            if Ascii.eqb c "." then read_digits r' i 0 else (i, O, r1)
        | EmptyString => (i, O, r1)
        end in
      if (ni + nf =? 0)%nat then DNaN
      else
        let e := read_exponent r2 in
        let v := (inject_Z m * pow10 (e - Z.of_nat nf))%Q in
        DFin (Qred (if neg then - v else v))
  end.

(** *** Printing *)

Fixpoint frac_digits (fuel : nat) (r d : Z) : string :=
  match fuel with
  | O => ""
  | S fuel' =>
      if r =? 0 then ""
      else pretty (10 * r / d) ++ frac_digits fuel' (10 * r mod d) d
  end.

Definition dtoString (x : dnum) : string :=
  match x with
  | DNaN => "NaN"
  | DInf negative => if negative then "-Infinity" else "Infinity"
  | DFin q =>
      let d := Z.pos (Qden q) in
      let a := Z.abs (Qnum q) in
      (if is_neg q then "-" else "") ++ pretty (a / d) ++
      (if a mod d =? 0 then "" else "." ++ frac_digits 20 (a mod d) d)
  end.

(** [x.toFixed(2)]: the nearest multiple of 0.01, ties away from zero. *)
Definition dtoFixed2 (x : dnum) : string :=
  match x with
  | DNaN => "NaN"
  | DInf negative => if negative then "-Infinity" else "Infinity"
  | DFin q =>
      let n := Qfloor (Qabs q * 100 + (1 # 2)) in
      (if is_neg q then "-" else "") ++ pretty (n / 100) ++ "." ++
      pretty (n mod 100 / 10) ++ pretty (n mod 10)
  end.

#[export] Instance exact_number : JSNumber := {|
  num := dnum;
  lit := dlit;
  parseFloat := dparseFloat;
  ncompare := dcompare;
  add := dadd;
  mul := dmul;
  div := ddiv;
  nabs := dabs;
  toFixed2 := dtoFixed2;
  toString := dtoString
|}.

(** *** The calendar *)

(** Year, month and day of a day number counted from 1970-01-01. *)
Definition civil (days : Z) : Z * Z * Z :=
  let z := days + 719468 in
  let era := z / 146097 in
  let doe := z - era * 146097 in
  let yoe := (doe - doe / 1460 + doe / 36524 - doe / 146096) / 365 in
  let doy := doe - (365 * yoe + yoe / 4 - yoe / 100) in
  let mp := (5 * doy + 2) / 153 in
  let d := doy - (153 * mp + 2) / 5 + 1 in
  let m := if mp <? 10 then mp + 3 else mp - 9 in
  let y := yoe + era * 400 + (if m <=? 2 then 1 else 0) in
  (y, m, d).

(** The day number of a date. *)
Definition day_number (y m d : Z) : Z :=
  let y' := if m <=? 2 then y - 1 else y in
  let era := y' / 400 in
  let yoe := y' - era * 400 in
  let doy := (153 * (if 2 <? m then m - 3 else m + 9) + 2) / 5 + d - 1 in
  let doe := yoe * 365 + yoe / 4 - yoe / 100 + doy in
  era * 146097 + doe - 719468.

(** [n] in decimal, padded with zeros to [width] digits. *)
Definition pad (width : nat) (n : Z) : string :=
  let s := pretty (Z.to_N n) in
  String.concat "" (replicate (width - String.length s) "0") ++ s.

Definition clock_time (ms_of_day : Z) : string :=
  pad 2 (ms_of_day / 3600000) ++ ":" ++ pad 2 (ms_of_day / 60000 mod 60) ++
  ":" ++ pad 2 (ms_of_day / 1000 mod 60).

Definition day_ms : Z := 86400000.

Definition dtoISOString (ms : Z) : string :=
  let '(y, m, d) := civil (ms / day_ms) in
  pad 4 y ++ "-" ++ pad 2 m ++ "-" ++ pad 2 d ++ "T" ++
  clock_time (ms mod day_ms) ++ "." ++ pad 3 (ms mod 1000) ++ "Z".

(** The last Sunday of a month of 31 days. *)
Definition last_sunday (y m : Z) : Z :=
  let d31 := day_number y m 31 in d31 - (d31 + 4) mod 7.

(** Summer time runs from 01:00 UTC on the last Sunday of March to 01:00
    UTC on the last Sunday of October. *)
Definition paris_offset (ms : Z) : Z :=
  let y := (civil (ms / day_ms)).1.1 in
  let start := last_sunday y 3 * day_ms + 3600000 in
  let stop := last_sunday y 10 * day_ms + 3600000 in
  if (start <=? ms) && (ms <? stop) then 7200000 else 3600000.

Definition dtoParisTime (ms : Z) : string :=
  clock_time ((ms + paris_offset ms) mod day_ms).

#[export] Instance calendar : JSDate := {|
  toISOString := dtoISOString;
  toParisTime := dtoParisTime
|}.

(** *** Reading dates back *)

(** Dates read back in the form [YYYY-MM-DD] the logger writes, the day
    being one of the calendar; every other text is taken as an invalid
    date. *)
Definition dparseDate (s : string) : option Z :=
  let '(y, ny, r1) := read_digits s 0 0 in
  r1 ← strip_prefix "-" r1;
  let '(m, nm, r2) := read_digits r1 0 0 in
  r2 ← strip_prefix "-" r2;
  let '(d, nd, r3) := read_digits r2 0 0 in
  if (ny =? 4)%nat && (nm =? 2)%nat && (nd =? 2)%nat && String.eqb r3 "" &&
     bool_decide (civil (day_number y m d) = (y, m, d))
  then Some (day_number y m d * day_ms)
  else None.

(** Whole days back, for a browser whose time zone is UTC. *)
Definition ddaysBefore (now days : Z) : Z := now - days * day_ms.

#[export] Instance utc_dates : JSDateParse := {|
  parseDate := dparseDate;
  daysBefore := ddaysBefore
|}.
End Exact.


(** ** The vocabulary of the specification *)

Module Spec.
Import CSVMonitor PortfolioLogger.

(** Every character of [s] is a decimal digit. *)
Fixpoint all_digits (s : string) : Prop :=
  match s with
  | EmptyString => True
  | String c s' => is_digit c = true /\ all_digits s'
  end.

(** The name contains [lpxd_external_advisors_DF_<8 digits>-<4 digits>.csv]. *)
Definition matches_convention (name : string) : Prop :=
  exists pre d8 d4 post,
    name = pre ++ "lpxd_external_advisors_DF_" ++ d8 ++ "-" ++ d4 ++ ".csv" ++ post
    /\ String.length d8 = 8%nat /\ all_digits d8
    /\ String.length d4 = 4%nat /\ all_digits d4.

(** The name is [lpxd_external_advisors_DF_<8 digits>-2355.csv], with
    nothing before and nothing after: the daily release of 23:55. *)
Definition is_release_name (name : string) : Prop :=
  exists d8,
    name = "lpxd_external_advisors_DF_" ++ d8 ++ "-2355.csv"
    /\ String.length d8 = 8%nat /\ all_digits d8.

(** The name ends in [suf]. *)
Definition has_suffix (suf name : string) : Prop :=
  exists pre, name = pre ++ suf.

(** A file the selector may return. *)
Definition conforms (f : CSVFile) : bool :=
  pattern_test (filename f) && endsWith (filename f) "2355.csv".

(** The first file of the list whose name ends in [2355.csv]. *)
Definition first_ending_2355 (csvFiles : list CSVFile) : option CSVFile :=
  List.find (fun f => endsWith (filename f) "2355.csv") csvFiles.

(** The same file with another modification time. *)
Definition with_modified (stamp : CSVFile -> string) (f : CSVFile) : CSVFile :=
  {| filename := filename f; modified := stamp f; size := size f |}.

Definition outcome_map {A B} (g : A -> B) (o : outcome A) : outcome B :=
  match o with
  | Return a => Return (g a)
  | Throw msg => Throw msg
  end.

(** The calls of the rebalance callback among the events of a check. *)
Definition rebalance_calls (evs : list event)
  : list (list (gmap string string) * string) :=
  omap (fun e => match e with
                 | Rebalance data name => Some (data, name)
                 | _ => None
                 end) evs.

(** A fresh monitor after a reload of the page, with the callback the page
    installs again. *)
Definition restart (st : state) : state :=
  match onRebalanceCallback st with
  | Some cb => setOnRebalance cb CSVMonitor.constructor
  | None => CSVMonitor.constructor
  end.

(** The header cells of a rebalance file, as written. *)
Definition raw_headers (csvText : string) : list string :=
  split "," (hd "" (split LF (trim csvText))).

(** The column names of a rebalance file. *)
Definition header_names (csvText : string) : list string :=
  map trim (raw_headers csvText).

(** The lines after the header line. *)
Definition data_lines (csvText : string) : list string :=
  tl (split LF (trim csvText)).

(** The most lenient reading of a weight that parses as a signed real
    number: a prefix of the cell is a finite decimal literal. *)
Definition is_signed_real (s : string) : bool :=
  match Exact.dparseFloat s with
  | Exact.DFin _ => true
  | _ => false
  end.

Definition column_absent (column csvText : string) : Prop :=
  ~ In column (header_names csvText).

Definition bad_weight (column csvText : string) : Prop :=
  exists row v,
    In row (parseCSV csvText) /\ row !! column = Some v /\ is_signed_real v = false.

(** The file lacks the weight column or holds a weight that is no number. *)
Definition malformed (column csvText : string) : Prop :=
  column_absent column csvText \/ bad_weight column csvText.

(** The calls a page makes on its monitor, and the firing of the timer. *)
Inductive call : Type :=
| Start (net : Network)
| Stop
| Tick (net : Network) (currentHour currentMinute : Z)
| Check (net : Network)
| Update (currentHour currentMinute : Z)
| SetOnRebalance (cb : callback).

Definition perform (st : state) (c : call) : state * list event :=
  match c with
  | Start net => startMonitoring net st
  | Stop => (stopMonitoring st, [])
  | Tick net currentHour currentMinute => tick net currentHour currentMinute st
  | Check net => checkForNewCSV net st
  | Update currentHour currentMinute =>
      (updateCheckInterval st currentHour currentMinute, [])
  | SetOnRebalance cb => (setOnRebalance cb st, [])
  end.

(** The state after a sequence of calls, with the events of all of them. *)
Fixpoint perform_all (calls : list call) (st : state) : state * list event :=
  match calls with
  | [] => (st, [])
  | c :: rest =>
      let r := perform st c in
      let r' := perform_all rest r.1 in
      (r'.1, (r.2 ++ r'.2)%list)
  end.

(** A timer runs exactly while the monitor is on, at the check interval. *)
Definition timer_consistent (st : state) : Prop :=
  monitorInterval st = if isMonitoring st then Some (checkInterval st) else None.

(** The latest valid file of the list the network serves, if there is one,
    has this name and this modification time. *)
Definition serves_only (name stamp : string) (net : Network) : Prop :=
  forall f, findLatestCSV (getCSVFiles net) = Return (Some f) ->
            filename f = name /\ modified f = stamp.

(** The number of line feeds of a text. *)
Fixpoint count_LF (s : string) : nat :=
  match s with
  | EmptyString => O
  | String a s' => ((if Ascii.eqb a LF then 1 else 0) + count_LF s')%nat
  end.

(** The invariant of the monitor: the timer agrees with the flag and the
    interval, the release window is the constructor's, and the interval is
    one of the three the script knows. *)
Definition monitor_ok (st : state) : Prop :=
  timer_consistent st
  /\ csvReleaseWindow st = csvReleaseWindow CSVMonitor.constructor
  /\ (checkInterval st = 30000 \/ checkInterval st = 10000 \/ checkInterval st = 60000).

(** Carriage return. *)
Definition CR : ascii := ascii_of_nat 13.

Fixpoint all_space (s : string) : bool :=
  match s with
  | EmptyString => true
  | String a s' => is_space a && all_space s'
  end.

(** The text with Windows line ends: a carriage return before each line
    feed. *)
Fixpoint crlf (s : string) : string :=
  match s with
  | EmptyString => EmptyString
  | String a s' =>
      if Ascii.eqb a LF then String CR (String LF (crlf s'))
      else String a (crlf s')
  end.

(** [c] appended to the last string of a list. *)
Fixpoint snoc_last (c : ascii) (parts : list string) : list string :=
  match parts with
  | [] => []
  | x :: rest =>
      match rest with
      | [] => [x ++ String c ""]
      | _ :: _ => x :: snoc_last c rest
      end
  end.

(** [c] appended to every string of a list but the last. *)
Fixpoint snoc_but_last (c : ascii) (parts : list string) : list string :=
  match parts with
  | [] => []
  | x :: rest =>
      match rest with
      | [] => [x]
      | _ :: _ => (x ++ String c "") :: snoc_but_last c rest
      end
  end.

(** The names that become keys of an object filled by assignments: all but
    [__proto__]. *)
Definition own_keys (names : list string) : list string :=
  List.filter (fun name => negb (String.eqb name "__proto__")) names.

(** A row from keys already trimmed. *)
Definition keyed_row (keys values : list string) : gmap string string :=
  foldl (fun row ik => assign ik.2 (cell values ik.1) row) ∅ (imap pair keys).

Section LoggerSpec.
Context {N : JSNumber} {D : JSDate}.

(** The element with this id is absent, or its text, once the characters
    of [cls] are removed, parses to NaN. *)
Definition unreadable (cls : ascii -> bool) (id : string) (page : Page) : Prop :=
  match elements page !! id with
  | None => True
  | Some textContent =>
      ncompare (parseFloat (remove_chars cls textContent)) (lit 0) = None
  end.

(** The element with this id is on the page and its text, once the
    characters of [cls] are removed, parses to a number equal to zero. *)
Definition reads_zero (cls : ascii -> bool) (id : string) (page : Page) : Prop :=
  exists textContent,
    elements page !! id = Some textContent
    /\ ncompare (parseFloat (remove_chars cls textContent)) (lit 0) = Some Eq.

Definition action_name (a : Action) : string :=
  match a with
  | PreExecution => "pre_execution"
  | PostExecution => "post_execution"
  end.

(** The object a cycle hands to [appendToLog]. *)
Definition cycle_record (c : Cycle) : gmap string jsval :=
  gatherPortfolioData (page c) (clock c) (csv c) (action_name (action c)).

(** The text a field of a position is read as: the string [undefined] when
    the position has no such field. *)
Definition field_text (position : gmap string string) (key : string) : string :=
  match position !! key with
  | Some text => text
  | None => "undefined"
  end.

(** The number of contracts the position targets. *)
Definition contracts_of (position : gmap string string) : num :=
  parseFloat (field_text position "target_contracts").

(** The target contracts of the position parse to a number above 0. *)
Definition is_long (position : gmap string string) : bool :=
  match ncompare (contracts_of position) (lit 0) with
  | Some Gt => true
  | _ => false
  end.

(** The notional the position targets. *)
Definition notional_of (position : gmap string string) : num :=
  parseFloat (field_text position "target_notional").

(** [x1 + x2 + ...] started from 0, as [+=] in a loop computes it. *)
Definition total_of (xs : list num) : num := foldl add (lit 0) xs.

(** The timestamps increase strictly from each record to the next, in the
    order of ISO 8601 strings. *)
Definition strictly_time_ordered (stamps : list jsval) : Prop :=
  forall i a b,
    stamps !! i = Some (VString a) -> stamps !! S i = Some (VString b) ->
    String.ltb a b = true.

(** All of a string but its last character. *)
Fixpoint drop_last (s : string) : string :=
  match s with
  | EmptyString => EmptyString
  | String a s' =>
      match s' with
      | EmptyString => EmptyString
      | String _ _ => String a (drop_last s')
      end
  end.

(** Each pair of double quotes gives one. *)
Fixpoint undouble (s : string) : string :=
  match s with
  | EmptyString => EmptyString
  | String a r =>
      if Ascii.eqb a dquote then
        match r with
        | String b r' =>
            if Ascii.eqb b dquote then String dquote (undouble r')
            else String a (undouble r)
        | EmptyString => String a EmptyString
        end
      else String a (undouble r)
  end.

(** Reading a cell back as a CSV reader does: a cell that opens with a
    double quote loses its outer quotes and has its inner ones undoubled. *)
Definition unquote (cell : string) : string :=
  match cell with
  | EmptyString => EmptyString
  | String a r => if Ascii.eqb a dquote then undouble (drop_last r) else cell
  end.

(** The number is not NaN. *)
Definition is_number (x : num) : Prop := ncompare x (lit 0) <> None.

(** [(notional / 1000000) * 100] *)
Definition weight_of (position : gmap string string) : num :=
  mul (div (notional_of position) (lit 1000000)) (lit 100).

(** The value is the number 0 or compares strictly with 0: it is not NaN. *)
Definition zero_or_nonzero (x : num) : Prop :=
  x = lit 0 \/ ncompare x (lit 0) = Some Lt \/ ncompare x (lit 0) = Some Gt.

(** The entry [getTopPositions] starts from. *)
Definition no_position : jsval * num := (VString "N/A", lit 0).

(** What a cycle adds to the chart. *)
Definition plotted (c : Cycle) : list (jsval * jsval) :=
  match action c with
  | PreExecution => []
  | PostExecution =>
      if addPortfolioValueDataPoint (page c) && truthy (getPortfolioValue (page c))
      then [(VString (hd "" (split "T" (toISOString (clock c)))),
             VNumber (getPortfolioValue (page c)))]
      else []
  end.

End LoggerSpec.
End Spec.

(** ** Sample files, networks and pages *)

Module Samples.
Import CSVMonitor PortfolioLogger Exact.

Definition name_12 : string := "lpxd_external_advisors_DF_20251012-2355.csv".

Definition file_12 : CSVFile :=
  {| filename := name_12; modified := "2025-10-13T00:05:00.000Z"; size := "73" |}.

Definition file_13 : CSVFile :=
  {| filename := "lpxd_external_advisors_DF_20251013-2355.csv";
     modified := "2025-10-14T00:04:00.000Z"; size := "73" |}.

(** A copy of the morning file of 16 September, renamed. *)
Definition file_bak : CSVFile :=
  {| filename := "lpxd_external_advisors_DF_20250916-0806.csv.bak_2355.csv";
     modified := "2025-09-16T08:10:00.000Z"; size := "73" |}.

Definition file_backup : CSVFile :=
  {| filename := "backup_2355.csv";
     modified := "2025-10-14T09:00:00.000Z"; size := "73" |}.

Definition content_12 : string :=
  "ticker,target_notional,target_contracts" ++ String LF
  "AAA,500000,10" ++ String LF "BBB,-250000,-5".

Definition content_bad : string := "ticker,weight" ++ String LF "AAA,abc".

(** A monitoring server that lists [file_12] and serves [content]. *)
Definition serving (content : string) : Network :=
  {| csvFilesResp := Ok (Some [file_12]);
     localHead := NotOk;
     nowISO := "2025-10-13T00:30:00.000Z";
     serverContent := fun name =>
       if String.eqb name name_12 then Ok (Some content) else NotOk;
     localFile := fun _ => NotOk |}.

(** The file is listed, and neither the server nor the page can load it. *)
Definition unreachable : Network :=
  {| csvFilesResp := Ok (Some [file_12]);
     localHead := NotOk;
     nowISO := "2025-10-13T00:30:00.000Z";
     serverContent := fun _ => NotOk;
     localFile := fun _ => NotOk |}.

(** The server lists these files and serves the content of the sample
    release file under every name. *)
Definition listing (files : list CSVFile) : Network :=
  {| csvFilesResp := Ok (Some files);
     localHead := NotOk;
     nowISO := "2025-10-14T00:30:00.000Z";
     serverContent := fun _ => Ok (Some content_12);
     localFile := fun _ => NotOk |}.

Definition accept : callback := fun _ _ => Return tt.

Definition monitor0 : state := setOnRebalance accept CSVMonitor.constructor.

(** A page without the portfolio value element, whose P&L reads [N/A]. *)
Definition page_blank : @Page exact_number :=
  {| elements := {[ "daily-pnl" := "N/A" ]};
     cumulativePnL := None;
     addPortfolioValueDataPoint := false;
     portfolioData := None |}.

(** A page whose P&L reads a real zero. *)
Definition page_flat : @Page exact_number :=
  {| elements := {[ "daily-pnl" := "$0.00" ]};
     cumulativePnL := None;
     addPortfolioValueDataPoint := false;
     portfolioData := None |}.

Definition page_live : @Page exact_number :=
  {| elements :=
       <[ "portfolio-value" := "$1,375,335.19" ]>
         (<[ "daily-pnl" := "-1,200.50" ]> {[ "pnl-percent" := "-0.09%" ]});
     cumulativePnL := Some (DFin (375335 # 1));
     addPortfolioValueDataPoint := true;
     portfolioData := Some (parseCSV content_12) |}.

(** 2025-10-13T00:30:00.000Z *)
Definition half_past_midnight : Z := 1760315400000.

Definition world0 : @World exact_number :=
  {| console := [];
     chartPoints := [];
     serverLog := Some (join "," logHeaders ++ String LF "") |}.

Definition cycle_pre : @Cycle exact_number :=
  {| action := PreExecution; clock := half_past_midnight;
     page := page_live; csv := name_12 |}.

Definition cycle_post : @Cycle exact_number :=
  {| action := PostExecution; clock := half_past_midnight;
     page := page_live; csv := name_12 |}.

(** A log file with three entries, one of them with a date that is none. *)
Definition log_text : string :=
  "timestamp,date,portfolio_value" ++ String LF
  "2025-10-01T00:30:00.000Z,2025-10-01,1000000" ++ String LF
  "2025-10-12T00:30:00.000Z,2025-10-12,1375335.19" ++ String LF
  "2025-10-13T00:30:00.000Z,yesterday,1375000".

Definition world_log : @World exact_number :=
  {| console := []; chartPoints := []; serverLog := Some log_text |}.

(** The same log with a space before the name of the date column. *)
Definition world_spaced : @World exact_number :=
  {| console := []; chartPoints := [];
     serverLog := Some ("timestamp, date" ++ String LF
                        "2025-10-12T00:30:00.000Z, 2025-10-12") |}.
End Samples.

(** * Properties *)

Import CSVMonitor PortfolioLogger Exact Spec Samples.

(** Case analysis on the condition of a conditional of the goal. *)
Ltac split_if :=
  match goal with
  | |- context [if ?b then _ else _] => destruct b
  end.

(** ** The pattern test and the suffix test against their descriptions *)

Lemma sapp_assoc (a b c : string) : (a ++ b) ++ c = a ++ (b ++ c).
Proof.
  induction a as [|x a IH]; [reflexivity|].
  change (String x ((a ++ b) ++ c) = String x (a ++ (b ++ c))).
  rewrite IH. reflexivity.
Qed.

Lemma strip_prefix_spec p s r :
  strip_prefix p s = Some r <-> s = p ++ r.
Proof.
  revert s. induction p as [|a p IH]; intros s; simpl.
  - split; [intros [= ->]; reflexivity | intros ->; reflexivity].
  - destruct s as [|b s]; [split; discriminate|].
    destruct (Ascii.eqb_spec a b) as [->|Hne].
    + rewrite IH. split; [intros ->; reflexivity | intros [= ->]; reflexivity].
    + split; [discriminate | intros [= -> _]; contradiction].
Qed.

Lemma take_digits_spec n s r :
  take_digits n s = Some r <->
  exists d, s = d ++ r /\ String.length d = n /\ all_digits d.
Proof.
  revert s. induction n as [|n IH]; intros s; simpl.
  - split.
    + intros [= ->]. exists "". simpl. auto.
    + intros (d & -> & Hl & _). destruct d; [reflexivity | discriminate].
  - destruct s as [|c s].
    + split; [discriminate|]. intros (d & Hd & Hl & _).
      destruct d; discriminate.
    + destruct (is_digit c) eqn:Hc.
      * rewrite IH. split.
        -- intros (d & -> & Hl & Hd). exists (String c d). simpl. auto.
        -- intros (d & Hs & Hl & Hd). destruct d as [|c' d]; [discriminate|].
           simpl in *. injection Hs as -> ->. injection Hl as Hl.
           exists d. tauto.
      * split; [discriminate|]. intros (d & Hs & Hl & Hd).
        destruct d as [|c' d]; [discriminate|]. simpl in *.
        injection Hs as -> ->. destruct Hd. congruence.
Qed.

Lemma pattern_at_spec s :
  is_Some (pattern_at s) <->
  exists d8 d4 post,
    s = "lpxd_external_advisors_DF_" ++ d8 ++ "-" ++ d4 ++ ".csv" ++ post
    /\ String.length d8 = 8%nat /\ all_digits d8
    /\ String.length d4 = 4%nat /\ all_digits d4.
Proof.
  unfold pattern_at. split.
  - intros [r Hr].
    apply bind_Some in Hr as (r1 & H1 & Hr).
    apply bind_Some in Hr as (r2 & H2 & Hr).
    apply bind_Some in Hr as (r3 & H3 & Hr).
    apply bind_Some in Hr as (r4 & H4 & Hr).
    apply strip_prefix_spec in H1, H3, Hr.
    apply take_digits_spec in H2 as (d8 & -> & ? & ?).
    apply take_digits_spec in H4 as (d4 & -> & ? & ?).
    subst. exists d8, d4, r. auto.
  - intros (d8 & d4 & post & -> & L8 & D8 & L4 & D4).
    exists post.
    apply bind_Some. exists (d8 ++ "-" ++ d4 ++ ".csv" ++ post). split.
    { apply strip_prefix_spec. reflexivity. }
    apply bind_Some. exists ("-" ++ d4 ++ ".csv" ++ post). split.
    { apply take_digits_spec. eauto. }
    apply bind_Some. exists (d4 ++ ".csv" ++ post). split.
    { apply strip_prefix_spec. reflexivity. }
    apply bind_Some. exists (".csv" ++ post). split.
    { apply take_digits_spec. eauto. }
    apply strip_prefix_spec. reflexivity.
Qed.

Lemma pattern_test_cons c s :
  pattern_test (String c s) =
  bool_decide (is_Some (pattern_at (String c s))) || pattern_test s.
Proof. reflexivity. Qed.

Lemma pattern_test_spec s :
  pattern_test s = true <-> matches_convention s.
Proof.
  unfold matches_convention. induction s as [|c s IH].
  - split; [discriminate|].
    intros (pre & d8 & d4 & post & H & R). destruct pre; discriminate.
  - rewrite pattern_test_cons, orb_true_iff, bool_decide_eq_true, pattern_at_spec, IH.
    split.
    + intros [(d8 & d4 & post & H) | (pre & d8 & d4 & post & H & R)].
      * exists "", d8, d4, post. exact H.
      * exists (String c pre), d8, d4, post. simpl. rewrite H. auto.
    + intros (pre & d8 & d4 & post & H & R). destruct pre as [|c' pre].
      * left. exists d8, d4, post. auto.
      * right. simpl in H. injection H as -> H. exists pre, d8, d4, post. auto.
Qed.

Lemma endsWith_cons c s suf :
  endsWith (String c s) suf = String.eqb (String c s) suf || endsWith s suf.
Proof. reflexivity. Qed.

Lemma endsWith_spec s suf :
  endsWith s suf = true <-> has_suffix suf s.
Proof.
  unfold has_suffix. induction s as [|c s IH].
  - change (endsWith "" suf) with (String.eqb "" suf || false).
    rewrite orb_false_r, String.eqb_eq. split.
    + intros <-. exists "". reflexivity.
    + intros (pre & H). destruct pre; [exact H | discriminate].
  - rewrite endsWith_cons, orb_true_iff, String.eqb_eq, IH. split.
    + intros [<- | (pre & ->)]; [exists "" | exists (String c pre)]; reflexivity.
    + intros (pre & H). destruct pre as [|c' pre]; [left; exact H|].
      right. injection H as -> ->. eauto.
Qed.

Lemma conforms_spec f :
  conforms f = true <->
  matches_convention (filename f) /\ has_suffix "2355.csv" (filename f).
Proof.
  unfold conforms. rewrite andb_true_iff, pattern_test_spec, endsWith_spec.
  reflexivity.
Qed.

(** ** findLatestCSV *)

Lemma find_filter {A} (p q : A -> bool) (l : list A) :
  List.find q (List.filter p l) = List.find (fun x => p x && q x) l.
Proof.
  induction l as [|x l IH]; [reflexivity|]. simpl.
  destruct (p x); simpl; [destruct (q x)|]; auto.
Qed.

Lemma filter_nil_iff {A} (p : A -> bool) (l : list A) :
  List.filter p l = [] <-> forall x, In x l -> p x = false.
Proof.
  induction l as [|x l IH]; simpl.
  - split; [intros _ ? [] | reflexivity].
  - destruct (p x) eqn:Hx.
    + split; [discriminate|]. intros H. specialize (H x (or_introl eq_refl)).
      congruence.
    + rewrite IH. split.
      * intros H y [<-|Hy]; auto.
      * intros H y Hy. apply H. auto.
Qed.

(** The selector in one step: nothing when no name matches the pattern,
    else the first conforming file, else an error. *)
Lemma findLatestCSV_eq (csvFiles : list CSVFile) :
  findLatestCSV csvFiles =
  match List.filter (fun f => pattern_test (filename f)) csvFiles with
  | [] => Return None
  | _ :: _ =>
      match List.find conforms csvFiles with
      | Some f => Return (Some f)
      | None => Throw "2355.csv file is required but not found!"
      end
  end.
Proof.
  unfold findLatestCSV. rewrite find_filter.
  destruct (List.filter _ csvFiles); reflexivity.
Qed.

Lemma find_first {A} (p : A -> bool) (l : list A) (x : A) :
  List.find p l = Some x <->
  exists before after,
    l = (before ++ x :: after)%list /\ p x = true /\
    forall y, In y before -> p y = false.
Proof.
  induction l as [|a l IH]; simpl.
  - split; [discriminate|]. intros (b & t & H & _). destruct b; discriminate.
  - destruct (p a) eqn:Ha.
    + split.
      * intros [= ->]. exists [], l. simpl. tauto.
      * intros (b & t & H & Hx & Hb). destruct b as [|y b].
        -- injection H as -> _. reflexivity.
        -- injection H as -> _. specialize (Hb y (or_introl eq_refl)). congruence.
    + rewrite IH. split.
      * intros (b & t & -> & Hx & Hb). exists (a :: b), t.
        split; [reflexivity|]. split; [assumption|].
        intros y [<-|Hy]; auto.
      * intros (b & t & H & Hx & Hb). destruct b as [|y b].
        -- injection H as -> _. congruence.
        -- injection H as -> ->. exists b, t. split; [reflexivity|].
           split; [assumption|]. intros z Hz. apply Hb. right. exact Hz.
Qed.

Lemma findLatestCSV_Some (csvFiles : list CSVFile) (f : CSVFile) :
  findLatestCSV csvFiles = Return (Some f) <-> List.find conforms csvFiles = Some f.
Proof.
  rewrite findLatestCSV_eq.
  destruct (List.filter _ csvFiles) as [|v vs] eqn:Hv.
  - split; [discriminate|]. intros H. apply find_some in H as [Hin Hc].
    apply andb_true_iff in Hc as [Hp _].
    pose proof (proj1 (filter_nil_iff _ _) Hv f Hin) as Hn. simpl in Hn. congruence.
  - destruct (List.find conforms csvFiles); split; congruence.
Qed.

(** A release name passes both tests of the selector. *)
Lemma release_name_conforms f :
  is_release_name (filename f) -> conforms f = true.
Proof.
  intros (d8 & Hname & L8 & D8). apply conforms_spec. split.
  - exists "", d8, "2355", "". rewrite Hname. simpl. tauto.
  - exists ("lpxd_external_advisors_DF_" ++ d8 ++ "-"). rewrite Hname.
    rewrite (sapp_assoc "lpxd_external_advisors_DF_" (d8 ++ "-") "2355.csv").
    rewrite (sapp_assoc d8 "-" "2355.csv"). reflexivity.
Qed.

(** C7, amended. The selector tests the names with a pattern that has no
    anchors. Whatever the list of candidate files: a file is returned only
    if it is in the list, its name contains, at some place, a match of
    [lpxd_external_advisors_DF_<8 digits>-<4 digits>.csv] and its name ends
    in [2355.csv]; null is returned exactly when no name contains a match of
    the pattern; an error is thrown exactly when some name contains a match
    and none of those names ends in [2355.csv]. A list that holds a name of
    the exact form [lpxd_external_advisors_DF_<8 digits>-2355.csv] always
    gives a file. Names of other forms that pass the two tests are returned
    as well: the release convention is enforced no further. *)
Theorem findLatestCSV_naming_convention (csvFiles : list CSVFile) :
  (forall f, findLatestCSV csvFiles = Return (Some f) ->
     In f csvFiles /\ matches_convention (filename f) /\
     has_suffix "2355.csv" (filename f))
  /\ (forall f, In f csvFiles -> is_release_name (filename f) ->
      exists g, findLatestCSV csvFiles = Return (Some g))
  /\ (findLatestCSV csvFiles = Return None <->
      forall f, In f csvFiles -> ~ matches_convention (filename f))
  /\ ((exists msg, findLatestCSV csvFiles = Throw msg) <->
      (exists f, In f csvFiles /\ matches_convention (filename f)) /\
      (forall f, In f csvFiles -> matches_convention (filename f) ->
         ~ has_suffix "2355.csv" (filename f))).
Proof.
  split; [|split; [|split]].
  - intros f Hf. apply findLatestCSV_Some in Hf. apply find_some in Hf as [Hin Hc].
    apply conforms_spec in Hc. tauto.
  - intros f Hin Hname. apply release_name_conforms in Hname.
    destruct (List.find conforms csvFiles) as [g|] eqn:Hg.
    + exists g. apply findLatestCSV_Some. exact Hg.
    + pose proof (find_none _ _ Hg f Hin) as Hn. congruence.
  - rewrite findLatestCSV_eq.
    destruct (List.filter _ csvFiles) as [|v vs] eqn:Hv.
    + split; [|reflexivity]. intros _ f Hin Hm.
      pose proof (proj1 (filter_nil_iff _ _) Hv f Hin) as Hn. simpl in Hn.
      apply pattern_test_spec in Hm. congruence.
    + split.
      * destruct (List.find conforms csvFiles); discriminate.
      * intros H. exfalso.
        assert (Hin : In v (List.filter (fun f => pattern_test (filename f)) csvFiles))
          by (rewrite Hv; left; reflexivity).
        apply filter_In in Hin as [Hin Hp]. apply pattern_test_spec in Hp.
        exact (H v Hin Hp).
  - rewrite findLatestCSV_eq.
    destruct (List.filter _ csvFiles) as [|v vs] eqn:Hv.
    + split; [intros [msg H]; discriminate|]. intros [(f & Hin & Hm) _].
      pose proof (proj1 (filter_nil_iff _ _) Hv f Hin) as Hn. simpl in Hn.
      apply pattern_test_spec in Hm. congruence.
    + assert (Hin : In v (List.filter (fun f => pattern_test (filename f)) csvFiles))
        by (rewrite Hv; left; reflexivity).
      apply filter_In in Hin as [Hin Hp]. apply pattern_test_spec in Hp.
      destruct (List.find conforms csvFiles) as [g|] eqn:Hg.
      * split; [intros [msg H]; discriminate|]. intros [_ H].
        apply find_some in Hg as [Hgin Hc]. apply conforms_spec in Hc as [Hc1 Hc2].
        exfalso. exact (H g Hgin Hc1 Hc2).
      * split; [|eauto]. intros _. split; [eauto|].
        intros f Hf Hm Hs.
        pose proof (find_none _ _ Hg f Hf) as Hn.
        assert (conforms f = true) by (apply conforms_spec; auto). congruence.
Qed.

(** C7, counterexample. The name of [file_bak] is not a release name: it is
    the name of the morning file of 16 September followed by
    [.bak_2355.csv]. It contains a match of the pattern and ends in
    [2355.csv], and the selector returns it, also ahead of the release file
    of 12 October that follows it in the list. *)
Lemma unanchored_pattern_accepts_other_names :
  ~ is_release_name (filename file_bak)
  /\ findLatestCSV [file_bak] = Return (Some file_bak)
  /\ is_release_name (filename file_12)
  /\ findLatestCSV [file_bak; file_12] = Return (Some file_bak).
Proof.
  split; [|split; [reflexivity|split; [|reflexivity]]].
  - intros (d8 & Hname & L8 & D8).
    apply (proj2 (strip_prefix_spec _ _ _)) in Hname. simpl in Hname.
    injection Hname as Hname.
    assert (H : take_digits 8 "20250916-0806.csv.bak_2355.csv" = Some "-2355.csv").
    { apply take_digits_spec. exists d8. rewrite Hname. auto. }
    discriminate H.
  - exists "20251012". simpl. tauto.
Qed.

Lemma conforms_with_modified stamp f :
  conforms (with_modified stamp f) = conforms f.
Proof. reflexivity. Qed.

Lemma find_conforms_with_modified stamp (l : list CSVFile) :
  List.find conforms (map (with_modified stamp) l) =
  option_map (with_modified stamp) (List.find conforms l).
Proof.
  induction l as [|x l IH]; [reflexivity|]. simpl.
  rewrite conforms_with_modified. destruct (conforms x); [reflexivity | exact IH].
Qed.

Lemma filter_pattern_with_modified stamp (l : list CSVFile) :
  List.filter (fun f => pattern_test (filename f)) (map (with_modified stamp) l) =
  map (with_modified stamp) (List.filter (fun f => pattern_test (filename f)) l).
Proof.
  induction l as [|x l IH]; [reflexivity|]. simpl.
  destruct (pattern_test (filename x)); simpl; rewrite IH; reflexivity.
Qed.

(** C10, amended. The selector returns the first file, in the order of the
    input list, whose name both matches the pattern and ends in [2355.csv]:
    files before it that end in [2355.csv] without matching the pattern are
    passed over. Modification times play no part: replacing them by any
    others leaves the place of the selected file unchanged. *)
Theorem findLatestCSV_first_conforming (csvFiles : list CSVFile) :
  (forall f,
     findLatestCSV csvFiles = Return (Some f) <->
     exists before after,
       csvFiles = (before ++ f :: after)%list /\
       (matches_convention (filename f) /\ has_suffix "2355.csv" (filename f)) /\
       forall g, In g before ->
         ~ (matches_convention (filename g) /\ has_suffix "2355.csv" (filename g)))
  /\ (forall stamp,
        findLatestCSV (map (with_modified stamp) csvFiles) =
        outcome_map (option_map (with_modified stamp)) (findLatestCSV csvFiles)).
Proof.
  split.
  - intros f. rewrite findLatestCSV_Some, find_first. split.
    + intros (b & t & -> & Hc & Hb). exists b, t. split; [reflexivity|].
      split; [apply conforms_spec; exact Hc|].
      intros g Hg Hcg. apply conforms_spec in Hcg. rewrite (Hb g Hg) in Hcg.
      discriminate.
    + intros (b & t & -> & Hc & Hb). exists b, t. split; [reflexivity|].
      split; [apply conforms_spec; exact Hc|].
      intros g Hg. destruct (conforms g) eqn:Hcg; [|reflexivity].
      exfalso. apply (Hb g Hg). apply conforms_spec. exact Hcg.
  - intros stamp. rewrite !findLatestCSV_eq, filter_pattern_with_modified,
      find_conforms_with_modified.
    destruct (List.filter _ csvFiles); [reflexivity|]. simpl.
    destruct (List.find conforms csvFiles); reflexivity.
Qed.

(** C10, counterexample. Three files end in [2355.csv]; the first of them in
    list order, [backup_2355.csv], does not match the pattern, and the
    selector returns the second one. *)
Lemma first_2355_file_skipped :
  let csvFiles := [file_backup; file_13; file_12] in
  length (List.filter (fun f => endsWith (filename f) "2355.csv") csvFiles) = 3%nat
  /\ first_ending_2355 csvFiles = Some file_backup
  /\ findLatestCSV csvFiles = Return (Some file_13)
  /\ findLatestCSV csvFiles <> Return (first_ending_2355 csvFiles).
Proof.
  repeat split; try reflexivity. discriminate.
Qed.

(** ** checkForNewCSV and triggerRebalancing *)

Lemma findLatestCSV_nonempty csvFiles f :
  findLatestCSV csvFiles = Return (Some f) -> (length csvFiles =? 0)%nat = false.
Proof.
  intros H. destruct csvFiles; [discriminate H | reflexivity].
Qed.

Lemma check_files_found net st csvFiles f :
  findLatestCSV csvFiles = Return (Some f) ->
  check_files net st csvFiles =
  if is_new st f then
    (track (filename f) (modified f) st,
     triggerRebalancing net (onRebalanceCallback st) (filename f))
  else (st, []).
Proof.
  intros H. unfold check_files.
  rewrite (findLatestCSV_nonempty _ _ H), H. reflexivity.
Qed.

Lemma is_new_false st f :
  is_new st f = false <->
  currentCSV st = Some (filename f) /\ lastModified st = Some (modified f).
Proof.
  unfold is_new. rewrite orb_false_iff, !negb_false_iff, !bool_decide_eq_true.
  reflexivity.
Qed.

Lemma is_new_track st f f' :
  filename f' = filename f -> modified f' = modified f ->
  is_new (track (filename f) (modified f) st) f' = false.
Proof.
  intros Hn Hm. apply is_new_false. simpl. rewrite Hn, Hm. auto.
Qed.

(** After a check that found [f], the monitor tracks [f]. *)
Lemma check_files_tracks net st csvFiles f :
  findLatestCSV csvFiles = Return (Some f) ->
  is_new (check_files net st csvFiles).1 f = false.
Proof.
  intros H. rewrite (check_files_found _ _ _ _ H).
  destruct (is_new st f) eqn:Hnew; simpl; [|exact Hnew].
  apply is_new_track; reflexivity.
Qed.

Lemma is_new_same_name_stamp st f f' :
  filename f' = filename f -> modified f' = modified f ->
  is_new st f' = is_new st f.
Proof. intros Hn Hm. unfold is_new. rewrite Hn, Hm. reflexivity. Qed.

Lemma is_new_restart st f : is_new (restart st) f = true.
Proof. unfold restart. destruct (onRebalanceCallback st); reflexivity. Qed.

Lemma callback_restart st :
  onRebalanceCallback (restart st) = onRebalanceCallback st.
Proof. unfold restart. destruct (onRebalanceCallback st); reflexivity. Qed.

Lemma callback_check_files net st csvFiles :
  onRebalanceCallback (check_files net st csvFiles).1 = onRebalanceCallback st.
Proof.
  unfold check_files. destruct (length csvFiles =? 0)%nat; [reflexivity|].
  destruct (findLatestCSV csvFiles) as [[f|]|]; try reflexivity.
  destruct (is_new st f); reflexivity.
Qed.

(** The callback is called at most once by a rebalancing, with the rows
    parsed from the text that was loaded. *)
Lemma rebalance_calls_trigger net cb name :
  rebalance_calls (triggerRebalancing net cb name) =
  match load_csv net name, cb with
  | Return csvText, Some _ => [(parseCSV csvText, name)]
  | _, _ => []
  end.
Proof.
  unfold triggerRebalancing.
  destruct (load_csv net name) as [csvText|msg]; [|reflexivity].
  destruct cb as [f|]; [|reflexivity]. simpl.
  destruct (f (parseCSV csvText) name); reflexivity.
Qed.

Lemma check_files_cases net st csvFiles :
  check_files net st csvFiles = (st, []) \/
  exists f,
    findLatestCSV csvFiles = Return (Some f) /\ is_new st f = true /\
    check_files net st csvFiles =
      (track (filename f) (modified f) st,
       triggerRebalancing net (onRebalanceCallback st) (filename f)).
Proof.
  unfold check_files. destruct (length csvFiles =? 0)%nat; [left; reflexivity|].
  destruct (findLatestCSV csvFiles) as [[f|]|]; try (left; reflexivity).
  destruct (is_new st f) eqn:Hnew; [|left; reflexivity].
  right. exists f. auto.
Qed.

Lemma perform_all_check net calls st :
  perform_all (Check net :: calls) st =
  ((perform_all calls (check_files net st (getCSVFiles net)).1).1,
   ((check_files net st (getCSVFiles net)).2 ++
    (perform_all calls (check_files net st (getCSVFiles net)).1).2)%list).
Proof. reflexivity. Qed.

Lemma perform_all_checks_tracked nets st name stamp :
  currentCSV st = Some name -> lastModified st = Some stamp ->
  Forall (serves_only name stamp) nets ->
  perform_all (map Check nets) st = (st, []).
Proof.
  intros Hn Hs Hall. induction Hall as [|net nets Hnet Hall IH]; [reflexivity|].
  cbn [map]. rewrite perform_all_check.
  destruct (check_files_cases net st (getCSVFiles net)) as [->|(f & Hf & Hnew & _)].
  - cbn [fst snd]. rewrite IH. reflexivity.
  - exfalso. destruct (Hnet f Hf) as [Hfn Hfs].
    assert (is_new st f = false) by (apply is_new_false; rewrite Hfn, Hfs; auto).
    congruence.
Qed.

(** A monitor that tracks a file stays as it is, and triggers nothing,
    through every run of checks that find no other file. *)
Lemma checks_after_tracking nets net st f :
  findLatestCSV (getCSVFiles net) = Return (Some f) ->
  Forall (serves_only (filename f) (modified f)) nets ->
  perform_all (map Check nets) (checkForNewCSV net st).1 =
  ((checkForNewCSV net st).1, []).
Proof.
  intros Hfound Hall.
  pose proof (check_files_tracks net st _ f Hfound) as Htracked.
  apply is_new_false in Htracked as [Hname Hstamp].
  exact (perform_all_checks_tracked nets _ _ _ Hname Hstamp Hall).
Qed.

(** C1, amended. While the monitor object lives and the latest valid file
    keeps its name and its modification time, the check is idempotent: once
    a check has seen a latest valid file, every later check, in any run of
    checks whose lists have no latest valid file of another name or
    modification time, triggers nothing and leaves the state as it is,
    whatever else the network serves. The monitor remembers the last file
    only: once a check has seen a latest valid file of another name or
    modification time, the first file is new again, and a check that finds
    it calls the callback again. After a restart (currentCSV and
    lastModified back to null) the check processes the file again as well:
    the callback, when installed, is called once more, with the position
    set parsed from the content served then, which is the position set of
    the first processing when the content loads the same. *)
Theorem check_idempotent_until_restart
    (net : Network) (st : state) (f : CSVFile)
    (Hfound : findLatestCSV (getCSVFiles net) = Return (Some f)) :
  let st1 := (checkForNewCSV net st).1 in
  let calls_for net' :=
    match load_csv net' (filename f), onRebalanceCallback st with
    | Return csvText, Some _ => [(parseCSV csvText, filename f)]
    | _, _ => []
    end in
  (forall nets,
     Forall (serves_only (filename f) (modified f)) nets ->
     perform_all (map Check nets) st1 = (st1, []))
  /\ (forall net2 g net3,
        findLatestCSV (getCSVFiles net2) = Return (Some g) ->
        filename g <> filename f \/ modified g <> modified f ->
        findLatestCSV (getCSVFiles net3) = Return (Some f) ->
        rebalance_calls (checkForNewCSV net3 (checkForNewCSV net2 st1).1).2 =
        calls_for net3)
  /\ (forall net' f',
        findLatestCSV (getCSVFiles net') = Return (Some f') ->
        filename f' = filename f -> modified f' = modified f ->
        rebalance_calls (checkForNewCSV net' (restart st1)).2 = calls_for net'
        /\ (is_new st f = true ->
            load_csv net' (filename f) = load_csv net (filename f) ->
            rebalance_calls (checkForNewCSV net' (restart st1)).2 =
            rebalance_calls (checkForNewCSV net st).2)).
Proof.
  intros st1 calls_for.
  pose proof (check_files_tracks net st _ f Hfound) as Htracked.
  apply is_new_false in Htracked as [Hcur Hlast]. fold (checkForNewCSV net st) in Hcur, Hlast.
  split; [|split].
  - intros nets Hall. exact (checks_after_tracking nets net st f Hfound Hall).
  - intros net2 g net3 Hg Hother Hf.
    assert (Hgnew : is_new st1 g = true).
    { destruct (is_new st1 g) eqn:Hn; [reflexivity|].
      apply is_new_false in Hn as [Hn Hs]. unfold st1 in Hn, Hs.
      rewrite Hcur in Hn. rewrite Hlast in Hs.
      injection Hn as Hn. injection Hs as Hs.
      destruct Hother as [H|H]; exfalso; apply H; congruence. }
    unfold checkForNewCSV at 2.
    rewrite (check_files_found _ _ _ _ Hg), Hgnew. cbn [fst].
    assert (Hfnew : is_new (track (filename g) (modified g) st1) f = true).
    { destruct (is_new (track (filename g) (modified g) st1) f) eqn:Hn;
        [reflexivity|].
      apply is_new_false in Hn as [Hn Hs]. simpl in Hn, Hs.
      injection Hn as Hn. injection Hs as Hs.
      destruct Hother as [H|H]; exfalso; apply H; congruence. }
    unfold checkForNewCSV.
    rewrite (check_files_found _ _ _ _ Hf), Hfnew. cbn [snd].
    rewrite rebalance_calls_trigger. cbn [onRebalanceCallback track].
    unfold st1, checkForNewCSV. rewrite callback_check_files. reflexivity.
  - intros net' f' Hfound' Hname Hstamp.
    assert (Hagain :
      rebalance_calls (checkForNewCSV net' (restart st1)).2 = calls_for net').
    { unfold checkForNewCSV at 1.
      rewrite (check_files_found _ _ _ _ Hfound'), is_new_restart. cbn [snd].
      rewrite rebalance_calls_trigger, callback_restart. unfold st1, checkForNewCSV.
      rewrite callback_check_files, Hname. reflexivity. }
    split; [exact Hagain|].
    intros Hnew Hsame. rewrite Hagain. unfold calls_for. rewrite Hsame.
    unfold checkForNewCSV.
    rewrite (check_files_found _ _ _ _ Hfound), Hnew. cbn [snd].
    rewrite rebalance_calls_trigger. reflexivity.
Qed.

(** C1, witness: after a first check of the release file of 12 October,
    three more checks do nothing; a check that sees the file of 13 October
    in between makes the next check of the first file rebalance again, and
    so does a restart. *)
Lemma check_idempotent_until_restart_witness :
  let st1 := (checkForNewCSV (serving content_12) monitor0).1 in
  let later := [serving content_12; unreachable; serving content_bad] in
  (findLatestCSV (getCSVFiles (serving content_12)) = Return (Some file_12)
   /\ Forall (serves_only name_12 (modified file_12)) later)
  /\ perform_all (map Check later) st1 = (st1, [])
  /\ rebalance_calls
       (checkForNewCSV (listing [file_12])
          (checkForNewCSV (listing [file_13]) st1).1).2 =
     [(parseCSV content_12, name_12)]
  /\ rebalance_calls (checkForNewCSV (serving content_12) (restart st1)).2 =
     [(parseCSV content_12, name_12)].
Proof.
  intros st1 later.
  assert (H : Forall (serves_only name_12 (modified file_12)) later).
  { do 3 (constructor; [intros f [= <-]; split; reflexivity|]). constructor. }
  split; [split; [reflexivity | exact H]|].
  destruct (check_idempotent_until_restart (serving content_12) monitor0 file_12
              eq_refl) as (H1 & H2 & H3).
  split; [exact (H1 later H)|]. split.
  - assert (Hother : filename file_13 <> filename file_12 \/
                     modified file_13 <> modified file_12).
    { left. intros Heq. discriminate Heq. }
    exact (H2 (listing [file_13]) file_13 (listing [file_12]) eq_refl Hother eq_refl).
  - exact (proj1 (H3 (serving content_12) file_12 eq_refl eq_refl eq_refl)).
Defined.

(** C1, counterexample. The file list and the file content are unchanged;
    the monitor is restarted after a first check that rebalanced; the check
    after the restart calls the rebalance callback a second time. *)
Lemma restart_rebalances_again :
  let first := checkForNewCSV (serving content_12) monitor0 in
  let again := checkForNewCSV (serving content_12) (restart first.1) in
  currentCSV (restart first.1) = None
  /\ lastModified (restart first.1) = None
  /\ rebalance_calls first.2 = [(parseCSV content_12, name_12)]
  /\ rebalance_calls again.2 = [(parseCSV content_12, name_12)]
  /\ rebalance_calls again.2 <> [].
Proof.
  repeat split; try reflexivity. discriminate.
Qed.

(** Without a restart: the served lists have the release file of 12
    October, then that of 13 October, then that of 12 October again, and
    the file of 12 October is rebalanced twice. *)
Example other_file_in_between :
  map (fun c => c.2)
    (rebalance_calls
       (perform_all
          (map Check [listing [file_12]; listing [file_13]; listing [file_12]])
          monitor0).2) =
  [name_12; filename file_13; name_12].
Proof. reflexivity. Qed.

(** C2, amended. When a newly detected file fails to be processed, an error
    notification is shown, but the state is not rolled back: the monitor
    records the new file name and modification time before it processes the
    file and keeps them whatever happens next. If the file cannot be
    loaded, the status bar already shows the new file name and the callback
    is not called; if the callback itself throws, it has been called with
    the position set parsed from the file, and the failure is notified
    after the call. In both cases the file is not attempted again: every
    later check, in any run of checks whose lists have no latest valid file
    of another name or modification time, does nothing. *)
Theorem failure_does_not_roll_back
    (net : Network) (st : state) (f : CSVFile)
    (Hfound : findLatestCSV (getCSVFiles net) = Return (Some f))
    (Hnew : is_new st f = true) :
  let st1 := track (filename f) (modified f) st in
  let evs := (checkForNewCSV net st).2 in
  (checkForNewCSV net st).1 = st1
  /\ currentCSV st1 = Some (filename f)
  /\ lastModified st1 = Some (modified f)
  /\ (forall msg,
        load_csv net (filename f) = Throw msg ->
        evs = [StatusBar (filename f);
               Notification ("Rebalancing failed: " ++ msg) "error"])
  /\ (forall csvText cb msg,
        load_csv net (filename f) = Return csvText ->
        onRebalanceCallback st = Some cb ->
        cb (parseCSV csvText) (filename f) = Throw msg ->
        evs = [StatusBar (filename f);
               Rebalance (parseCSV csvText) (filename f);
               Notification ("Rebalancing failed: " ++ msg) "error"])
  /\ (forall nets,
        Forall (serves_only (filename f) (modified f)) nets ->
        perform_all (map Check nets) st1 = (st1, [])).
Proof.
  intros st1 evs. unfold evs, checkForNewCSV.
  rewrite (check_files_found _ _ _ _ Hfound), Hnew. cbn [fst snd].
  split; [reflexivity|]. split; [reflexivity|]. split; [reflexivity|].
  split; [|split].
  - intros msg Hfail. unfold triggerRebalancing. rewrite Hfail. reflexivity.
  - intros csvText cb msg Hload Hcb Hthrow. unfold triggerRebalancing.
    rewrite Hload, Hcb, Hthrow. reflexivity.
  - intros nets Hall.
    exact (perform_all_checks_tracked nets st1 _ _ eq_refl eq_refl Hall).
Qed.

(** C2, witness: the listed file can be loaded from nowhere, then the
    server serves it. *)
Lemma failure_does_not_roll_back_witness :
  let st1 := track name_12 (modified file_12) monitor0 in
  let later := [unreachable; serving content_12; serving content_12] in
  (findLatestCSV (getCSVFiles unreachable) = Return (Some file_12)
   /\ is_new monitor0 file_12 = true
   /\ Forall (serves_only name_12 (modified file_12)) later)
  /\ (checkForNewCSV unreachable monitor0).1 = st1
  /\ (checkForNewCSV unreachable monitor0).2 =
       [StatusBar name_12;
        Notification ("Rebalancing failed: Failed to load " ++ name_12) "error"]
  /\ perform_all (map Check later) st1 = (st1, []).
Proof.
  intros st1 later.
  assert (H : Forall (serves_only name_12 (modified file_12)) later).
  { do 3 (constructor; [intros f [= <-]; split; reflexivity|]). constructor. }
  split; [split; [reflexivity|split; [reflexivity|exact H]]|].
  destruct (failure_does_not_roll_back unreachable monitor0 file_12 eq_refl eq_refl)
    as (H1 & _ & _ & H4 & _ & H6).
  split; [exact H1|]. split; [|exact (H6 later H)].
  exact (H4 ("Failed to load " ++ name_12) eq_refl).
Defined.

(** C2, counterexample. The file is detected and cannot be loaded: after
    the failed cycle currentCSV and lastModified hold the new file, not the
    null they held before, and later cycles do nothing for that file, even
    once the server serves it. *)
Lemma failed_cycle_advances_state :
  let after := checkForNewCSV unreachable monitor0 in
  currentCSV monitor0 = None
  /\ lastModified monitor0 = None
  /\ rebalance_calls after.2 = []
  /\ after.2 = [StatusBar name_12; failure_note ("Failed to load " ++ name_12)]
  /\ currentCSV after.1 = Some name_12
  /\ lastModified after.1 = Some "2025-10-13T00:05:00.000Z"
  /\ currentCSV after.1 <> currentCSV monitor0
  /\ checkForNewCSV unreachable after.1 = (after.1, [])
  /\ checkForNewCSV (serving content_12) after.1 = (after.1, []).
Proof.
  repeat split; try reflexivity. discriminate.
Qed.

(** ** parseCSV *)

Lemma assign_other {A : Type} key (value : A) obj :
  key <> "__proto__" -> assign key value obj = <[key := value]> obj.
Proof.
  intros Hkey. unfold assign.
  destruct (String.eqb_spec key "__proto__"); [contradiction | reflexivity].
Qed.

Lemma own_keys_app names names' :
  own_keys (names ++ names')%list = (own_keys names ++ own_keys names')%list.
Proof. apply List.filter_app. Qed.

Lemma in_own_keys key names :
  In key (own_keys names) <-> In key names /\ key <> "__proto__".
Proof.
  unfold own_keys. rewrite List.filter_In.
  destruct (String.eqb_spec key "__proto__"); simpl; intuition congruence.
Qed.

(** An assignment adds its key to the own keys, unless it is [__proto__]. *)
Lemma dom_assign {A : Type} key (value : A) obj :
  dom (assign key value obj) = list_to_set (own_keys [key]) ∪ dom obj.
Proof.
  unfold assign, own_keys. simpl.
  destruct (String.eqb key "__proto__"); simpl.
  - symmetry. apply (left_id_L ∅ (∪)).
  - rewrite dom_insert_L, (right_id_L ∅ (∪)). reflexivity.
Qed.

Lemma parse_row_snoc headers h values :
  parse_row (headers ++ [h]) values =
  assign (trim h) (cell values (length headers)) (parse_row headers values).
Proof.
  unfold parse_row. rewrite imap_app, foldl_app. simpl.
  rewrite Nat.add_0_r. reflexivity.
Qed.

(** The keys of a row are the trimmed headers other than [__proto__]. *)
Lemma parse_row_dom headers values :
  dom (parse_row headers values) = list_to_set (own_keys (map trim headers)).
Proof.
  induction headers as [|h headers IH] using rev_ind.
  - unfold parse_row. simpl. apply dom_empty_L.
  - rewrite parse_row_snoc, dom_assign, IH, map_app, own_keys_app,
      list_to_set_app_L.
    apply (comm_L (∪)).
Qed.

(** The cell stored under a header that no later header repeats. *)
Lemma parse_row_lookup headers values i h :
  headers !! i = Some h ->
  trim h <> "__proto__" ->
  (forall j h', (i < j)%nat -> headers !! j = Some h' -> trim h' <> trim h) ->
  parse_row headers values !! trim h = Some (cell values i).
Proof.
  induction headers as [|x headers IH] using rev_ind; intros Hi Hown Hlast.
  - discriminate.
  - rewrite parse_row_snoc.
    destruct (decide (i = length headers)) as [->|Hne].
    + rewrite lookup_app_r, Nat.sub_diag in Hi by lia. injection Hi as ->.
      rewrite assign_other by exact Hown. apply lookup_insert_eq.
    + assert (Hlt : (i < length headers)%nat).
      { apply lookup_lt_Some in Hi. rewrite length_app in Hi. simpl in Hi. lia. }
      rewrite lookup_app_l in Hi by exact Hlt.
      assert (Hx : trim x <> trim h).
      { apply (Hlast (length headers) x Hlt).
        rewrite lookup_app_r, Nat.sub_diag by lia. reflexivity. }
      assert (IH' : parse_row headers values !! trim h = Some (cell values i)).
      { apply IH; [exact Hi | exact Hown |]. intros j h' Hj Hh'.
        apply (Hlast j h' Hj).
        rewrite lookup_app_l; [exact Hh' | eapply lookup_lt_Some; exact Hh']. }
      unfold assign. destruct (String.eqb (trim x) "__proto__"); [exact IH'|].
      rewrite lookup_insert_ne by exact Hx. exact IH'.
Qed.

Lemma parseCSV_rows csvText :
  parseCSV csvText =
  map (fun line => parse_row (raw_headers csvText) (split "," line))
      (data_lines csvText).
Proof. reflexivity. Qed.

(** C3, amended. The ingestor checks neither the columns nor the weights of
    a file. Whenever the content of the file loads, the rebalance callback,
    when installed, is called with the rows that parseCSV makes of that
    content: one row for each line after the header line, each row having
    as keys exactly the trimmed header names other than [__proto__] (a
    header of that name sets no key), and under each such name the cell
    that stands, in the line, at the place of the last header of that name,
    as text, trimmed, or the empty string when the line has no such
    cell. *)
Theorem rebalance_without_validation
    (net : Network) (cb : callback) (csvFilename csvText : string)
    (Hload : load_csv net csvFilename = Return csvText) :
  rebalance_calls (triggerRebalancing net (Some cb) csvFilename) =
    [(parseCSV csvText, csvFilename)]
  /\ length (parseCSV csvText) = length (data_lines csvText)
  /\ (forall row, In row (parseCSV csvText) ->
       dom row = list_to_set (own_keys (header_names csvText)))
  /\ (forall k line i h,
       data_lines csvText !! k = Some line ->
       raw_headers csvText !! i = Some h ->
       trim h <> "__proto__" ->
       (forall j h', (i < j)%nat -> raw_headers csvText !! j = Some h' ->
                     trim h' <> trim h) ->
       exists row,
         parseCSV csvText !! k = Some row /\
         row !! trim h = Some (cell (split "," line) i)).
Proof.
  split; [|split; [|split]].
  - rewrite rebalance_calls_trigger, Hload. reflexivity.
  - rewrite parseCSV_rows. apply length_map.
  - intros row Hrow. rewrite parseCSV_rows in Hrow.
    apply in_map_iff in Hrow as (line & <- & _). apply parse_row_dom.
  - intros k line i h Hline Hh Hown Hlast.
    exists (parse_row (raw_headers csvText) (split "," line)). split.
    + rewrite parseCSV_rows, list_lookup_fmap, Hline. reflexivity.
    + apply parse_row_lookup; assumption.
Qed.

(** C3, witness: a file whose weight cell reads [abc]. *)
Lemma rebalance_without_validation_witness :
  load_csv (serving content_bad) name_12 = Return content_bad
  /\ rebalance_calls (triggerRebalancing (serving content_bad) (Some accept) name_12) =
       [(parseCSV content_bad, name_12)]
  /\ length (parseCSV content_bad) = 1%nat.
Proof.
  split; [reflexivity|].
  destruct (rebalance_without_validation (serving content_bad) accept name_12
              content_bad eq_refl) as (H1 & H2 & _).
  split; [exact H1 | exact H2].
Defined.

(** C3, counterexample. The file has the columns [ticker] and [weight] and
    the single row [AAA,abc]: whichever column is taken as the weight
    column, it is absent or holds a cell that is no number; the callback is
    called all the same, with the row built from that file. *)
Lemma malformed_file_reaches_callback :
  (forall column, malformed column content_bad)
  /\ rebalance_calls (checkForNewCSV (serving content_bad) monitor0).2 =
       [(parseCSV content_bad, name_12)]
  /\ map (fun row => (row !! "ticker", row !! "weight")) (parseCSV content_bad) =
       [(Some "AAA", Some "abc")].
Proof.
  split; [|split; reflexivity].
  intros column.
  destruct (decide (column = "ticker")) as [->|Hticker].
  { right. exists (parse_row ["ticker"; "weight"] ["AAA"; "abc"]), "AAA".
    split; [left; reflexivity|]. split; reflexivity. }
  destruct (decide (column = "weight")) as [->|Hweight].
  { right. exists (parse_row ["ticker"; "weight"] ["AAA"; "abc"]), "abc".
    split; [left; reflexivity|]. split; reflexivity. }
  left. unfold column_absent.
  change (header_names content_bad) with ["ticker"; "weight"].
  intros [H|[H|[]]]; congruence.
Qed.

(** A header named [__proto__] gives no key, whatever the cells under it;
    the other headers give theirs. *)
Example parseCSV_proto_header :
  let csvText := "ticker,__proto__,weight" ++ String LF "AAA,x,0.5" in
  header_names csvText = ["ticker"; "__proto__"; "weight"]
  /\ map (fun row => (row !! "ticker", row !! "__proto__", row !! "weight"))
       (parseCSV csvText) = [(Some "AAA", None, Some "0.5")].
Proof. split; reflexivity. Qed.

(** ** updateCheckInterval *)

(** No method changes the release window the constructor sets. *)
Lemma csvReleaseWindow_setOnRebalance cb st :
  csvReleaseWindow (setOnRebalance cb st) = csvReleaseWindow st.
Proof. reflexivity. Qed.

Lemma csvReleaseWindow_check_files net st csvFiles :
  csvReleaseWindow (check_files net st csvFiles).1 = csvReleaseWindow st.
Proof.
  unfold check_files. destruct (length csvFiles =? 0)%nat; [reflexivity|].
  destruct (findLatestCSV csvFiles) as [[f|]|]; try reflexivity.
  destruct (is_new st f); reflexivity.
Qed.

Lemma csvReleaseWindow_updateCheckInterval st currentHour currentMinute :
  csvReleaseWindow (updateCheckInterval st currentHour currentMinute) =
  csvReleaseWindow st.
Proof. unfold updateCheckInterval. split_if; reflexivity. Qed.

(** The timer, when the monitor runs, is set to the check interval. *)
Lemma monitorInterval_updateCheckInterval st currentHour currentMinute :
  isMonitoring st = true ->
  monitorInterval st = Some (checkInterval st) ->
  let st' := updateCheckInterval st currentHour currentMinute in
  monitorInterval st' = Some (checkInterval st').
Proof.
  intros Hrun Htimer. unfold updateCheckInterval. split_if; [|exact Htimer].
  simpl. rewrite Hrun. reflexivity.
Qed.

(** On the readings of a clock, the release window is the first half hour
    of the day, the minute 00:30 included. *)
Lemma release_window_minutes (currentHour currentMinute : Z) :
  0 <= currentHour <= 23 -> 0 <= currentMinute <= 59 ->
  ((0 <= currentTime currentHour currentMinute /\
    currentTime currentHour currentMinute <= 1 # 2)%Q <->
   currentHour = 0 /\ currentMinute <= 30).
Proof.
  intros Hh Hm. unfold currentTime, Qle, Qdiv, Qmult, Qplus, Qinv, inject_Z.
  simpl. lia.
Qed.

(** C8. After every run of updateCheckInterval on a monitor whose release
    window is the one the constructor sets, the check interval is 10000 ms
    if and only if the time of day, hours plus minutes/60, lies between 0
    and 0.5 inclusive, and 60000 ms otherwise; it is never the 30000 ms the
    constructor starts with. On the readings of a clock, hours from 0 to 23
    and minutes from 0 to 59, the interval is 10000 ms exactly from 00:00
    to 00:30, the minute 00:30 included. *)
Theorem updateCheckInterval_cadence (st : state) (currentHour currentMinute : Z)
    (Hwindow : csvReleaseWindow st = csvReleaseWindow CSVMonitor.constructor) :
  let t := (inject_Z currentHour + inject_Z currentMinute / 60)%Q in
  let st' := updateCheckInterval st currentHour currentMinute in
  (checkInterval st' = 10000 <-> (0 <= t /\ t <= 1 # 2)%Q)
  /\ (checkInterval st' = 60000 <-> ~ (0 <= t /\ t <= 1 # 2)%Q)
  /\ checkInterval st' <> 30000
  /\ (0 <= currentHour <= 23 -> 0 <= currentMinute <= 59 ->
      (checkInterval st' = 10000 <-> currentHour = 0 /\ currentMinute <= 30)
      /\ (checkInterval st' = 60000 <-> ~ (currentHour = 0 /\ currentMinute <= 30))).
Proof.
  intros t st'.
  assert (Hin : inReleaseWindow st currentHour currentMinute = true <->
                (0 <= t /\ t <= 1 # 2)%Q).
  { unfold inReleaseWindow. rewrite Hwindow. simpl.
    rewrite andb_true_iff, !Qle_bool_iff. reflexivity. }
  assert (Hst : checkInterval st' =
                if inReleaseWindow st currentHour currentMinute then 10000 else 60000).
  { unfold st', updateCheckInterval.
    destruct (inReleaseWindow st currentHour currentMinute).
    - destruct (Z.eqb_spec 10000 (checkInterval st)); simpl; congruence.
    - destruct (Z.eqb_spec 60000 (checkInterval st)); simpl; congruence. }
  assert (Hfast : checkInterval st' = 10000 <-> (0 <= t /\ t <= 1 # 2)%Q).
  { rewrite Hst, <- Hin.
    destruct (inReleaseWindow st currentHour currentMinute);
      split; congruence. }
  assert (Hslow : checkInterval st' = 60000 <-> ~ (0 <= t /\ t <= 1 # 2)%Q).
  { rewrite Hst, <- Hin.
    destruct (inReleaseWindow st currentHour currentMinute);
      split; congruence. }
  split; [exact Hfast|]. split; [exact Hslow|]. split.
  - rewrite Hst. destruct (inReleaseWindow st currentHour currentMinute); discriminate.
  - intros Hh Hm.
    assert (Hclock : (0 <= t /\ t <= 1 # 2)%Q <->
                     currentHour = 0 /\ currentMinute <= 30)
      by exact (release_window_minutes currentHour currentMinute Hh Hm).
    rewrite Hfast, Hslow, Hclock. tauto.
Qed.

(** C8, witness: the first update of a new monitor at 00:30 and at 00:31,
    and an update at a quarter past one in the afternoon. *)
Lemma updateCheckInterval_cadence_witness :
  csvReleaseWindow CSVMonitor.constructor = csvReleaseWindow CSVMonitor.constructor
  /\ checkInterval (updateCheckInterval CSVMonitor.constructor 0 30) = 10000
  /\ checkInterval (updateCheckInterval CSVMonitor.constructor 0 31) = 60000
  /\ checkInterval (updateCheckInterval CSVMonitor.constructor 13 15) = 60000
  /\ checkInterval (updateCheckInterval CSVMonitor.constructor 1 0) = 60000.
Proof.
  split; [reflexivity|]. split; [|split; [|split]].
  - apply (proj2 (proj1
             (updateCheckInterval_cadence CSVMonitor.constructor 0 30 eq_refl))).
    split; discriminate.
  - apply (proj2 (proj1 (proj2
             (updateCheckInterval_cadence CSVMonitor.constructor 0 31 eq_refl)))).
    intros [_ H]. apply H. reflexivity.
  - apply (proj2 (proj1 (proj2
             (updateCheckInterval_cadence CSVMonitor.constructor 13 15 eq_refl)))).
    intros [_ H]. apply H. reflexivity.
  - assert (Hh : 0 <= 1 <= 23) by lia.
    assert (Hm : 0 <= 0 <= 59) by lia.
    apply (proj2 (proj2 (proj2 (proj2 (proj2
             (updateCheckInterval_cadence CSVMonitor.constructor 1 0 eq_refl)))
             Hh Hm))).
    intros [H _]. discriminate H.
Defined.

(** ** The portfolio logger, for every model of numbers and dates *)

Section LoggerFacts.
Context {N : JSNumber} {D : JSDate}.

Lemma read_element_unreadable cls id page :
  unreadable cls id page -> read_element cls id page = lit 0.
Proof.
  unfold unreadable, read_element. destruct (elements page !! id); [|reflexivity].
  intros H. unfold or0, truthy. rewrite H. reflexivity.
Qed.

Lemma getPortfolioValue_unreadable page :
  unreadable is_dollar_comma "portfolio-value" page ->
  getPortfolioValue page = lit 0.
Proof. apply read_element_unreadable. Qed.

Lemma getDailyPnL_unreadable page :
  unreadable is_dollar_comma "daily-pnl" page -> getDailyPnL page = lit 0.
Proof. apply read_element_unreadable. Qed.

(** A zero prints as an empty cell of the row, where zero compares equal
    to itself. *)
Lemma csv_cell_zero (logData : gmap string jsval) header :
  ncompare (lit 0) (lit 0) = Some Eq ->
  logData !! header = Some (VNumber (lit 0)) ->
  csv_cell logData header = "".
Proof.
  intros Hzero Hfield. unfold csv_cell, truthy. rewrite Hfield, Hzero.
  reflexivity.
Qed.

Lemma read_element_reads_zero cls id page :
  reads_zero cls id page -> read_element cls id page = lit 0.
Proof.
  intros (textContent & Helement & Hzero). unfold read_element.
  rewrite Helement. unfold or0, truthy. rewrite Hzero. reflexivity.
Qed.

(** The fields of a record are the headers of the log. *)
Lemma gatherPortfolioData_dom page now csvFilename action :
  dom (gatherPortfolioData page now csvFilename action) = list_to_set logHeaders.
Proof.
  unfold gatherPortfolioData. cbn zeta. rewrite dom_list_to_map_L. reflexivity.
Qed.

(** C4, amended. When the portfolio value or the daily P&L cannot be read
    at logging time (its element is absent from the page, or the text of the
    element parses to NaN), the logged record holds the number 0 in that
    field: the value the field holds whenever the element reads a number
    equal to zero. The fields of the record are the twenty-six headers of
    the log and no other, so no field marks a missing value. In the printed
    CSV row the cell of that field is empty, as every zero is printed,
    zero being a number that compares equal to itself. *)
Theorem unreadable_value_logged_as_zero
    (page : Page) (now : Z) (csvFilename action : string) (id field : string)
    (Hfield : In (id, field)
                [("portfolio-value", "portfolio_value"); ("daily-pnl", "daily_pnl")])
    (Hmissing : unreadable is_dollar_comma id page) :
  let logData := gatherPortfolioData page now csvFilename action in
  logData !! field = Some (VNumber (lit 0))
  /\ (forall page' now' csvFilename' action',
        reads_zero is_dollar_comma id page' ->
        gatherPortfolioData page' now' csvFilename' action' !! field =
        logData !! field)
  /\ dom logData = list_to_set logHeaders
  /\ (ncompare (lit 0) (lit 0) = Some Eq ->
      csv_cell logData field = ""
      /\ exists i, logHeaders !! i = Some field
                   /\ map (csv_cell logData) logHeaders !! i = Some "").
Proof.
  intros logData.
  assert (Hzero : logData !! field = Some (VNumber (lit 0))).
  { destruct Hfield as [[= <- <-]|[[= <- <-]|[]]].
    - change (Some (VNumber (getPortfolioValue page)) = Some (VNumber (lit 0))).
      rewrite getPortfolioValue_unreadable by exact Hmissing. reflexivity.
    - change (Some (VNumber (getDailyPnL page)) = Some (VNumber (lit 0))).
      rewrite getDailyPnL_unreadable by exact Hmissing. reflexivity. }
  split; [exact Hzero|]. split; [|split; [apply gatherPortfolioData_dom|]].
  - intros page' now' csvFilename' action' Hreads. rewrite Hzero.
    destruct Hfield as [[= <- <-]|[[= <- <-]|[]]].
    + change (Some (VNumber (getPortfolioValue page')) = Some (VNumber (lit 0))).
      unfold getPortfolioValue. rewrite read_element_reads_zero by exact Hreads.
      reflexivity.
    + change (Some (VNumber (getDailyPnL page')) = Some (VNumber (lit 0))).
      unfold getDailyPnL. rewrite read_element_reads_zero by exact Hreads.
      reflexivity.
  - intros Hlaw.
    assert (Hcell : csv_cell logData field = "")
      by (apply csv_cell_zero; assumption).
    split; [exact Hcell|].
    destruct Hfield as [[= <- <-]|[[= <- <-]|[]]].
    + exists 6%nat. split; [reflexivity|].
      rewrite list_lookup_fmap. change (logHeaders !! 6%nat) with (Some "portfolio_value").
      simpl. rewrite Hcell. reflexivity.
    + exists 7%nat. split; [reflexivity|].
      rewrite list_lookup_fmap. change (logHeaders !! 7%nat) with (Some "daily_pnl").
      simpl. rewrite Hcell. reflexivity.
Qed.

Lemma side_of_long position :
  side_of position = LONG <->
  ncompare (contracts_of position) (lit 0) = Some Gt.
Proof.
  unfold side_of, gt, parseField, contracts_of, field_text.
  destruct (position !! "target_contracts") as [text|]; simpl default.
  - destruct (ncompare (parseFloat text) (lit 0)) as [[]|]; split; congruence.
  - destruct (ncompare (parseFloat "undefined") (lit 0)) as [[]|]; split; congruence.
Qed.

Lemma side_of_is_long position :
  side_of position = if is_long position then LONG else SHORT.
Proof.
  unfold is_long. destruct (side_of position) eqn:Hside.
  - apply side_of_long in Hside. rewrite Hside. reflexivity.
  - destruct (ncompare (contracts_of position) (lit 0)) as [[]|] eqn:Hcmp;
      try reflexivity.
    apply side_of_long in Hcmp. congruence.
Qed.

Lemma side_of_short position :
  side_of position = SHORT <->
  ncompare (contracts_of position) (lit 0) = Some Eq \/
  ncompare (contracts_of position) (lit 0) = Some Lt \/
  ncompare (contracts_of position) (lit 0) = None.
Proof.
  rewrite side_of_is_long. unfold is_long.
  destruct (ncompare (contracts_of position) (lit 0)) as [[]|];
    split; try tauto; try congruence; intros [|[|]]; congruence.
Qed.

(** The notional the loop adds is the number read from [target_notional]. *)
Lemma parseField_notional position :
  parseField position "target_notional" = notional_of position.
Proof.
  unfold parseField, notional_of, field_text.
  destruct (position !! "target_notional"); reflexivity.
Qed.

(** The loop of [getPositionCounts] from any values of its counters. *)
Lemma count_positions_from positions longCount shortCount longN shortN :
  foldl count_position (longCount, shortCount, longN, shortN) positions =
  ((longCount + length (List.filter is_long positions))%nat,
   (shortCount + length (List.filter (fun p => negb (is_long p)) positions))%nat,
   foldl add longN (map notional_of (List.filter is_long positions)),
   foldl add shortN
     (map (fun p => nabs (notional_of p))
        (List.filter (fun p => negb (is_long p)) positions))).
Proof.
  revert longCount shortCount longN shortN.
  induction positions as [|p ps IH]; intros.
  - simpl. rewrite !Nat.add_0_r. reflexivity.
  - change (foldl count_position (longCount, shortCount, longN, shortN) (p :: ps))
      with (foldl count_position
              (count_position (longCount, shortCount, longN, shortN) p) ps).
    unfold count_position at 2.
    rewrite side_of_is_long, parseField_notional. cbn [List.filter].
    destruct (is_long p); cbn [negb]; rewrite IH; cbn [map foldl length];
      rewrite ?Nat.add_succ_r; reflexivity.
Qed.

(** C9. getPositionCounts counts a position as long exactly when the text
    of its target_contracts field parses to a number strictly above 0; a
    position whose target_contracts parses to zero, to a negative number or
    to NaN is short. The total is the long count plus the short count, and
    is the number of positions. The long notional is the sum of the numbers
    parsed from the target_notional fields of the long positions, as they
    are; the short notional is the sum of the absolute values of those of
    the short positions. *)
Theorem getPositionCounts_classification (page : Page) :
  let positions := default [] (portfolioData page) in
  let contracts position :=
    parseFloat (match position !! "target_contracts" with
                | Some text => text
                | None => "undefined"
                end) in
  let notional position :=
    parseFloat (match position !! "target_notional" with
                | Some text => text
                | None => "undefined"
                end) in
  let above_zero position :=
    bool_decide (ncompare (contracts position) (lit 0) = Some Gt) in
  let longs := List.filter above_zero positions in
  let shorts := List.filter (fun p => negb (above_zero p)) positions in
  let c := getPositionCounts page in
  (forall p, side_of p = LONG <-> ncompare (contracts p) (lit 0) = Some Gt)
  /\ (forall p, side_of p = SHORT <->
        ncompare (contracts p) (lit 0) = Some Eq \/
        ncompare (contracts p) (lit 0) = Some Lt \/
        ncompare (contracts p) (lit 0) = None)
  /\ long c = length longs
  /\ short c = length shorts
  /\ total c = (long c + short c)%nat
  /\ total c = length positions
  /\ longNotional c = total_of (map notional longs)
  /\ shortNotional c = total_of (map (fun p => nabs (notional p)) shorts).
Proof.
  intros positions contracts notional above_zero longs shorts c.
  split; [exact side_of_long|]. split; [exact side_of_short|].
  assert (Habove : forall p, above_zero p = is_long p).
  { intros p. unfold above_zero, is_long.
    change (contracts p) with (contracts_of p).
    destruct (ncompare (contracts_of p) (lit 0)) as [[]|]; reflexivity. }
  assert (Hlongs : forall l, List.filter above_zero l = List.filter is_long l).
  { intros l. apply List.filter_ext. exact Habove. }
  assert (Hshorts : forall l, List.filter (fun p => negb (above_zero p)) l =
                              List.filter (fun p => negb (is_long p)) l).
  { intros l. apply List.filter_ext. intros p. rewrite Habove. reflexivity. }
  assert (Hlen : forall l : list (gmap string string),
             (length (List.filter is_long l) +
              length (List.filter (fun p => negb (is_long p)) l))%nat = length l).
  { induction l as [|x l IHl]; [reflexivity|]. simpl.
    destruct (is_long x); simpl; lia. }
  subst c longs shorts. rewrite Hlongs, Hshorts. subst positions.
  change notional with notional_of.
  unfold getPositionCounts.
  destruct (portfolioData page) as [[|p ps]|]; simpl default.
  - repeat split; reflexivity.
  - rewrite count_positions_from. cbn [total long short longNotional shortNotional].
    rewrite !Nat.add_0_l. repeat split; try reflexivity. apply Hlen.
  - repeat split; reflexivity.
Qed.

Lemma records_say_Say msg w : records (say (Say msg) w) = records w.
Proof. unfold records, say. simpl. rewrite omap_app. simpl. apply app_nil_r. Qed.

Lemma rows_say_Say msg w : rows (say (Say msg) w) = rows w.
Proof. unfold rows, say. simpl. rewrite omap_app. simpl. apply app_nil_r. Qed.

Lemma records_appendToLog logData w :
  records (appendToLog logData w) = (records w ++ [logData])%list.
Proof.
  unfold appendToLog, records, say. simpl. rewrite !omap_app. simpl.
  rewrite !app_nil_r. reflexivity.
Qed.

Lemma rows_appendToLog logData w :
  rows (appendToLog logData w) = (rows w ++ [csv_row logData])%list.
Proof.
  unfold appendToLog, rows, say. simpl. rewrite !omap_app. simpl.
  rewrite !app_nil_r. reflexivity.
Qed.

Lemma records_plot d v w : records (plot d v w) = records w.
Proof. reflexivity. Qed.

Lemma rows_plot d v w : rows (plot d v w) = rows w.
Proof. reflexivity. Qed.

Lemma records_run_cycle w c :
  records (run_cycle w c) = (records w ++ [cycle_record c])%list.
Proof.
  unfold run_cycle, cycle_record, logPreExecution, logPostExecution.
  destruct (action c); cbn zeta.
  - rewrite records_say_Say, records_appendToLog, records_say_Say. reflexivity.
  - rewrite records_say_Say.
    split_if;
      rewrite ?records_plot, records_appendToLog, records_say_Say; reflexivity.
Qed.

Lemma rows_run_cycle w c :
  rows (run_cycle w c) = (rows w ++ [csv_row (cycle_record c)])%list.
Proof.
  unfold run_cycle, cycle_record, logPreExecution, logPostExecution.
  destruct (action c); cbn zeta.
  - rewrite rows_say_Say, rows_appendToLog, rows_say_Say. reflexivity.
  - rewrite rows_say_Say.
    split_if;
      rewrite ?rows_plot, rows_appendToLog, rows_say_Say; reflexivity.
Qed.

Lemma serverLog_run_cycle w c : serverLog (run_cycle w c) = serverLog w.
Proof.
  unfold run_cycle, logPreExecution, logPostExecution.
  destruct (action c); cbn zeta; [reflexivity|].
  split_if; reflexivity.
Qed.

Lemma console_run_cycle w c : console w `prefix_of` console (run_cycle w c).
Proof.
  unfold run_cycle, logPreExecution, logPostExecution.
  destruct (action c); cbn zeta.
  - simpl. rewrite <- !app_assoc. eexists. reflexivity.
  - split_if;
      simpl; rewrite <- !app_assoc; eexists; reflexivity.
Qed.

(** C5, amended. A logging cycle, before or after execution, prints
    exactly one row and one record to the console, after everything that was
    printed before, which it leaves as it was. It writes nothing to the log
    file: the content served for [portfolio_daily_log.csv] is the same after
    the cycle as before. *)
Theorem logging_cycle_prints_one_row (w : World) (c : Cycle) :
  getLogContent (run_cycle w c) = getLogContent w
  /\ rows (run_cycle w c) = (rows w ++ [csv_row (cycle_record c)])%list
  /\ records (run_cycle w c) = (records w ++ [cycle_record c])%list
  /\ console w `prefix_of` console (run_cycle w c).
Proof.
  split; [apply serverLog_run_cycle|].
  split; [apply rows_run_cycle|].
  split; [apply records_run_cycle | apply console_run_cycle].
Qed.

Lemma timestamp_of_cycle_record c :
  timestamp_of (cycle_record c) = VString (toISOString (clock c)).
Proof. reflexivity. Qed.

(** C6, amended. The logger stamps each record with the reading of the
    wall clock taken in its cycle and compares it with nothing: the
    timestamps of the records, in the order they were logged, are the ISO
    renderings of the successive clock readings. They increase strictly
    only as far as the readings do. *)
Theorem timestamps_follow_clock (cycles : list Cycle) (w : World) :
  map timestamp_of (records (run cycles w)) =
  (map timestamp_of (records w) ++
   map (fun c => VString (toISOString (clock c))) cycles)%list.
Proof.
  unfold run. revert w. induction cycles as [|c cycles IH]; intros w; simpl.
  - rewrite app_nil_r. reflexivity.
  - rewrite IH, records_run_cycle, map_app, <- app_assoc. simpl.
    rewrite timestamp_of_cycle_record. reflexivity.
Qed.

End LoggerFacts.

(** ** The portfolio logger on the sample pages *)

(** C4, witness: a page whose daily P&L reads [N/A], against a page whose
    daily P&L reads [$0.00]. *)
Lemma unreadable_value_logged_as_zero_witness :
  let logData :=
    gatherPortfolioData page_blank half_past_midnight name_12 "pre_execution" in
  (In ("daily-pnl", "daily_pnl")
      [("portfolio-value", "portfolio_value"); ("daily-pnl", "daily_pnl")]
   /\ unreadable is_dollar_comma "daily-pnl" page_blank)
  /\ logData !! "daily_pnl" = Some (VNumber (lit 0))
  /\ gatherPortfolioData page_flat half_past_midnight name_12 "pre_execution"
       !! "daily_pnl" = logData !! "daily_pnl"
  /\ dom logData = list_to_set logHeaders
  /\ csv_cell logData "daily_pnl" = "".
Proof.
  intros logData.
  split; [split; [right; left; reflexivity | reflexivity]|].
  destruct (unreadable_value_logged_as_zero page_blank half_past_midnight name_12
              "pre_execution" "daily-pnl" "daily_pnl"
              (or_intror (or_introl eq_refl)) eq_refl) as (H1 & H2 & H3 & H4).
  split; [exact H1|]. split; [|split; [exact H3|]].
  - apply H2. exists "$0.00". split; reflexivity.
  - exact (proj1 (H4 eq_refl)).
Defined.

(** C4, counterexample. The page has no portfolio value element and its
    daily P&L reads [N/A]: the record holds 0 in both fields, its keys are
    the twenty-six headers, none of which marks a missing value, and the
    two cells of the row are empty. *)
Lemma missing_value_logged_as_zero :
  let logData :=
    gatherPortfolioData page_blank half_past_midnight name_12 "pre_execution" in
  elements page_blank !! "portfolio-value" = None
  /\ parseFloat "N/A" = DNaN
  /\ logData !! "portfolio_value" = Some (VNumber (DFin 0))
  /\ logData !! "daily_pnl" = Some (VNumber (DFin 0))
  /\ dom logData = list_to_set logHeaders
  /\ csv_cell logData "portfolio_value" = ""
  /\ csv_cell logData "daily_pnl" = "".
Proof.
  repeat split; vm_compute; reflexivity.
Qed.

(** C5, counterexample. After a cycle that printed its row, the log file
    has the content it had before, not that content followed by the row. *)
Lemma log_file_not_appended :
  let w := run_cycle world0 cycle_post in
  rows w = [csv_row (cycle_record cycle_post)]
  /\ getLogContent w = getLogContent world0
  /\ getLogContent w <>
     option_map (fun old => old ++ csv_row (cycle_record cycle_post))
       (getLogContent world0).
Proof.
  split; [reflexivity|]. split; [reflexivity|].
  vm_compute. discriminate.
Qed.

(** C6, counterexample. The cycle before execution and the cycle after
    execution run within one millisecond: their records carry the same
    timestamp. *)
Lemma equal_timestamps_same_millisecond :
  map timestamp_of (records (run [cycle_pre; cycle_post] world0)) =
    [VString "2025-10-13T00:30:00.000Z"; VString "2025-10-13T00:30:00.000Z"]
  /\ ~ strictly_time_ordered
         (map timestamp_of (records (run [cycle_pre; cycle_post] world0))).
Proof.
  split; [reflexivity|].
  intros H. specialize (H 0%nat _ _ eq_refl eq_refl). vm_compute in H.
  discriminate H.
Qed.

(** ** The scripts run on the samples *)

Example pattern_test_samples :
  map pattern_test
    [ "lpxd_external_advisors_DF_20251012-2355.csv";
      "x_lpxd_external_advisors_DF_20251012-0806.csv.bak";
      "lpxd_external_advisors_DF_2025101-2355.csv";
      "backup_2355.csv" ] = [true; true; false; false].
Proof. reflexivity. Qed.

Example parseCSV_content_12 :
  map (fun row => (row !! "ticker", row !! "target_notional",
                   row !! "target_contracts", row !! "weight"))
      (parseCSV content_12) =
  [ (Some "AAA", Some "500000", Some "10", None);
    (Some "BBB", Some "-250000", Some "-5", None) ].
Proof. reflexivity. Qed.

(** Without the monitoring server the list holds the fixed local file,
    which is no release file: the selector throws and the check does
    nothing. *)
Example local_fallback_is_refused :
  let net := {| csvFilesResp := FetchThrows "Failed to fetch";
                localHead := Ok (Some "73");
                nowISO := "2025-10-13T00:30:00.000Z";
                serverContent := fun _ => NotOk;
                localFile := fun _ => Ok content_12 |} in
  map filename (getCSVFiles net) = ["lpxd_external_advisors_DF_20250916-0806.csv"]
  /\ findLatestCSV (getCSVFiles net) =
       Throw "2355.csv file is required but not found!"
  /\ checkForNewCSV net monitor0 = (monitor0, []).
Proof. repeat split; reflexivity. Qed.

Example parseFloat_samples :
  map parseFloat
    [ "1375335.19"; " -1200.50"; "-0.09%"; ".5"; "5."; "1e-3"; "+7";
      "-Infinity"; "N/A"; ""; "undefined"; "-"; "abc" ] =
  [ DFin (137533519 # 100); DFin (-2401 # 2); DFin (-9 # 100); DFin (1 # 2);
    DFin 5; DFin (1 # 1000); DFin 7; DInf true; DNaN; DNaN; DNaN; DNaN; DNaN ].
Proof. reflexivity. Qed.

Example getPositionCounts_page_live :
  getPositionCounts page_live =
  {| total := 2; long := 1; short := 1;
     longNotional := DFin 500000; shortNotional := DFin 250000 |}.
Proof. reflexivity. Qed.

Example row_of_cycle_pre :
  rows (run_cycle world0 cycle_pre) =
  [ "2025-10-13T00:30:00.000Z,2025-10-13,00:30:00,02:30:00," ++
    "lpxd_external_advisors_DF_20251012-2355.csv,pre_execution," ++
    "1375335.19,-1200.5,-0.09,375335,2,1,1,500000,250000,,750000,250000," ++
    "AAA,50,BBB,-25,40.00,960.40,1440.60,0.67" ++ String LF "" ].
Proof. reflexivity. Qed.

Example chart_after_post_execution :
  chartPoints (run [cycle_pre; cycle_post] world0) =
  [ (VString "2025-10-13", VNumber (DFin (137533519 # 100))) ].
Proof. reflexivity. Qed.

(** * Further properties of the two scripts *)

(** ** The monitor: checks, rebalancing and the timer *)

(** X1. Unless the monitoring server answers the request for the file list
    with success, a check does nothing: a failed answer gives an empty
    list, and the local file the script falls back on when the request
    throws is no release file, so that the selector refuses it. *)
Theorem check_needs_the_server (net : Network) (st : state)
    (Hserver : forall files, csvFilesResp net <> Ok files) :
  checkForNewCSV net st = (st, []).
Proof.
  unfold checkForNewCSV, getCSVFiles.
  destruct (csvFilesResp net) as [msg| |files].
  - destruct (localHead net) as [msg'| |len]; reflexivity.
  - reflexivity.
  - exfalso. exact (Hserver files eq_refl).
Qed.

(** X1, witness: the request throws and the local file is there. *)
Lemma check_needs_the_server_witness :
  let net := {| csvFilesResp := FetchThrows "Failed to fetch";
                localHead := Ok (Some "73");
                nowISO := "2025-10-13T00:30:00.000Z";
                serverContent := fun _ => Ok (Some content_12);
                localFile := fun _ => Ok content_12 |} in
  (forall files, csvFilesResp net <> Ok files)
  /\ checkForNewCSV net monitor0 = (monitor0, []).
Proof.
  intros net.
  assert (H : forall files, csvFilesResp net <> Ok files) by (intros files; discriminate).
  split; [exact H|]. exact (check_needs_the_server net monitor0 H).
Defined.

(** A check either does nothing or tracks the file it found and processes
    it. *)
Lemma in_triggerRebalancing net cb name e :
  In e (triggerRebalancing net cb name) ->
  e = StatusBar name \/
  (exists msg ty, e = Notification msg ty) \/
  (exists csvText, load_csv net name = Return csvText /\
                   e = Rebalance (parseCSV csvText) name).
Proof.
  unfold triggerRebalancing. intros [<-|Hin]; [left; reflexivity|].
  destruct (load_csv net name) as [csvText|msg].
  - destruct cb as [f|].
    + destruct Hin as [<-|Hin]; [right; right; eauto|].
      right; left. unfold success_note, failure_note in Hin.
      destruct (f (parseCSV csvText) name); destruct Hin as [<-|[]]; eauto.
    + right; left. destruct Hin as [<-|[]]. unfold success_note. eauto.
  - right; left. destruct Hin as [<-|[]]. unfold failure_note. eauto.
Qed.

Lemma rebalance_calls_length_trigger net cb name :
  (length (rebalance_calls (triggerRebalancing net cb name)) <= 1)%nat.
Proof.
  rewrite rebalance_calls_trigger.
  destruct (load_csv net name); [destruct cb|]; simpl; lia.
Qed.

(** The events of a rebalancing that calls the callback. *)
Lemma triggerRebalancing_called net cb name data name' :
  In (Rebalance data name') (triggerRebalancing net cb name) ->
  name' = name /\
  exists note, triggerRebalancing net cb name =
               [StatusBar name; Rebalance data name; note].
Proof.
  unfold triggerRebalancing. intros [[=]|Hin].
  destruct (load_csv net name) as [csvText|msg].
  - destruct cb as [f|].
    + destruct Hin as [[= <- <-]|Hin].
      * split; [reflexivity|].
        destruct (f (parseCSV csvText) name); eexists; reflexivity.
      * exfalso. unfold success_note, failure_note in Hin.
        destruct (f (parseCSV csvText) name); destruct Hin as [[=]|[]].
    + exfalso. destruct Hin as [[=]|[]].
  - exfalso. destruct Hin as [[=]|[]].
Qed.

(** X2. One check calls the rebalance callback at most once. It sets the
    status bar only as its first event, and only for a file of the served
    list whose name contains a match of the pattern, which has no anchors,
    and ends in [2355.csv]. It calls the callback only right after it has
    set the status bar to the same name, with the rows parsed from the
    content that was loaded under that name, and one more event, the
    notification, follows the call. *)
Theorem rebalance_only_for_release_files (net : Network) (st : state) :
  let evs := (checkForNewCSV net st).2 in
  (length (rebalance_calls evs) <= 1)%nat
  /\ (forall name, In (StatusBar name) evs ->
        hd_error evs = Some (StatusBar name) /\
        exists f, In f (getCSVFiles net) /\ filename f = name /\
                  matches_convention name /\ has_suffix "2355.csv" name)
  /\ (forall data name, In (Rebalance data name) evs ->
        (exists note, evs = [StatusBar name; Rebalance data name; note]) /\
        exists csvText, load_csv net name = Return csvText /\
                        data = parseCSV csvText).
Proof.
  unfold checkForNewCSV.
  destruct (check_files_cases net st (getCSVFiles net)) as [->|(f & Hf & Hnew & ->)];
    cbn [snd].
  { split; [simpl; lia|]. split; [intros name []|intros data name []]. }
  split; [apply rebalance_calls_length_trigger|]. split.
  - intros name Hin. apply in_triggerRebalancing in Hin
      as [[= ->]|[(msg & ty & [=])|(csvText & _ & [=])]].
    split; [reflexivity|].
    apply findLatestCSV_Some in Hf. apply find_some in Hf as [Hin Hc].
    apply conforms_spec in Hc as [Hm Hs]. eauto.
  - intros data name Hin. pose proof Hin as Hin'.
    apply in_triggerRebalancing in Hin'
      as [[=]|[(msg & ty & [=])|(csvText & Hload & [= -> ->])]].
    split; [|eauto].
    apply triggerRebalancing_called in Hin as [_ Hshape]. exact Hshape.
Qed.

Lemma rebalance_calls_app evs evs' :
  rebalance_calls (evs ++ evs') = (rebalance_calls evs ++ rebalance_calls evs')%list.
Proof. apply omap_app. Qed.

(** X3. Polling is quiet: in any run of successive checks during which the
    latest valid file, whenever the served list has one, keeps one name and
    one modification time, the rebalance callback is called at most once,
    whatever else the networks serve. *)
Theorem polling_rebalances_once (nets : list Network) (st : state)
    (name stamp : string)
    (Hsame : Forall (serves_only name stamp) nets) :
  (length (rebalance_calls (perform_all (map Check nets) st).2) <= 1)%nat.
Proof.
  revert st. induction Hsame as [|net nets Hnet Hall IH]; intros st.
  - simpl. lia.
  - cbn [map]. rewrite perform_all_check.
    destruct (check_files_cases net st (getCSVFiles net))
      as [->|(f & Hf & Hnew & ->)]; cbn [fst snd].
    + apply IH.
    + destruct (Hnet f Hf) as [-> ->].
      rewrite (perform_all_checks_tracked nets _ name stamp);
        [|reflexivity|reflexivity|exact Hall].
      cbn [snd]. rewrite app_nil_r. apply rebalance_calls_length_trigger.
Qed.

(** X3, witness: the file is served, then unreachable, then served with
    another content, under the same name and modification time. *)
Lemma polling_rebalances_once_witness :
  Forall (serves_only name_12 (modified file_12))
    [serving content_12; unreachable; serving content_bad]
  /\ (length (rebalance_calls
        (perform_all (map Check [serving content_12; unreachable; serving content_bad])
           monitor0).2) <= 1)%nat.
Proof.
  assert (H : Forall (serves_only name_12 (modified file_12))
                [serving content_12; unreachable; serving content_bad]).
  { do 3 (constructor; [intros f [= <-]; split; reflexivity|]). constructor. }
  split; [exact H|].
  exact (polling_rebalances_once _ monitor0 name_12 (modified file_12) H).
Defined.

(** What a check leaves alone. *)
Lemma check_files_frame net st csvFiles :
  let st' := (check_files net st csvFiles).1 in
  checkInterval st' = checkInterval st /\ isMonitoring st' = isMonitoring st /\
  monitorInterval st' = monitorInterval st.
Proof.
  destruct (check_files_cases net st csvFiles) as [->|(f & _ & _ & ->)];
    repeat split; reflexivity.
Qed.

Lemma is_new_set_monitoring on timer st f :
  is_new (set_monitoring on timer st) f = is_new st f.
Proof. reflexivity. Qed.

Lemma monitor_ok_check net st csvFiles :
  monitor_ok st -> monitor_ok (check_files net st csvFiles).1.
Proof.
  intros (Ht & Hw & Hi).
  destruct (check_files_frame net st csvFiles) as (Hc & Hm & Hti).
  unfold monitor_ok, timer_consistent.
  rewrite csvReleaseWindow_check_files, Hc, Hm, Hti. auto.
Qed.

Lemma monitor_ok_update st currentHour currentMinute :
  monitor_ok st -> monitor_ok (updateCheckInterval st currentHour currentMinute).
Proof.
  intros (Ht & Hw & Hi). unfold monitor_ok, timer_consistent in *.
  rewrite csvReleaseWindow_updateCheckInterval. unfold updateCheckInterval.
  destruct (inReleaseWindow st currentHour currentMinute);
    split_if; cbn; try (destruct (isMonitoring st)); auto.
Qed.

Lemma monitor_ok_perform st c : monitor_ok st -> monitor_ok (perform st c).1.
Proof.
  intros Hok. destruct c as [net| |net h m|net|h m|cb]; cbn [perform fst].
  - unfold startMonitoring. destruct (isMonitoring st) eqn:Hon; [exact Hok|].
    cbn [fst]. unfold checkForNewCSV.
    set (st0 := set_monitoring true (monitorInterval st) st).
    destruct (check_files_frame net st0 (getCSVFiles net)) as (Hc & _ & _).
    destruct Hok as (_ & Hw & Hi). unfold monitor_ok, timer_consistent.
    cbn. rewrite csvReleaseWindow_check_files, Hc. auto.
  - unfold stopMonitoring. destruct (isMonitoring st) eqn:Hon; [|exact Hok].
    destruct Hok as (_ & Hw & Hi). unfold monitor_ok, timer_consistent. cbn. auto.
  - unfold tick. cbn [fst]. apply monitor_ok_update, monitor_ok_check, Hok.
  - apply monitor_ok_check, Hok.
  - apply monitor_ok_update, Hok.
  - exact Hok.
Qed.

(** X6. Through every sequence of calls on a new monitor (start, stop,
    timer ticks, checks, interval updates, installing a callback), a timer
    is installed exactly while the monitor is on, and its period is the
    current check interval; the release window stays the constructor's and
    the check interval is 30000, 10000 or 60000 ms. *)
Theorem monitor_keeps_its_timer (calls : list call) :
  let st := (perform_all calls CSVMonitor.constructor).1 in
  timer_consistent st
  /\ csvReleaseWindow st = csvReleaseWindow CSVMonitor.constructor
  /\ (checkInterval st = 30000 \/ checkInterval st = 10000 \/ checkInterval st = 60000).
Proof.
  cbn zeta. change (monitor_ok (perform_all calls CSVMonitor.constructor).1).
  assert (Hstart : monitor_ok CSVMonitor.constructor).
  { unfold monitor_ok, timer_consistent. cbn. auto. }
  revert Hstart. generalize CSVMonitor.constructor as st.
  induction calls as [|c calls IH]; intros st Hok; [exact Hok|].
  cbn [perform_all fst]. apply IH, monitor_ok_perform, Hok.
Qed.

(** X7. Starting a monitor that is off turns it on with a timer at the
    check interval; starting it again while it is on does nothing. Stopping
    removes the timer and keeps the tracked file, so that starting again
    triggers nothing as long as the latest valid file has the same name and
    modification time. *)
Theorem stop_and_start_again_is_quiet
    (net net' : Network) (st : state) (f f' : CSVFile)
    (Hoff : isMonitoring st = false)
    (Hfound : findLatestCSV (getCSVFiles net) = Return (Some f))
    (Hfound' : findLatestCSV (getCSVFiles net') = Return (Some f'))
    (Hname : filename f' = filename f)
    (Hstamp : modified f' = modified f) :
  let st1 := (startMonitoring net st).1 in
  let st2 := stopMonitoring st1 in
  isMonitoring st1 = true
  /\ monitorInterval st1 = Some (checkInterval st1)
  /\ startMonitoring net' st1 = (st1, [])
  /\ isMonitoring st2 = false
  /\ monitorInterval st2 = None
  /\ getCurrentCSV st2 = (Some (filename f), Some (modified f))
  /\ (startMonitoring net' st2).2 = [].
Proof.
  intros st1 st2.
  assert (Hst1 : st1 =
    set_monitoring true (Some (checkInterval st))
      (check_files net (set_monitoring true (monitorInterval st) st) (getCSVFiles net)).1).
  { unfold st1, startMonitoring. rewrite Hoff. reflexivity. }
  destruct (check_files_frame net (set_monitoring true (monitorInterval st) st)
              (getCSVFiles net)) as (Hc & _ & _).
  pose proof (check_files_tracks net (set_monitoring true (monitorInterval st) st)
                _ _ Hfound) as Htracked.
  apply is_new_false in Htracked as [Hcur Hlast].
  assert (Hon : isMonitoring st1 = true) by (rewrite Hst1; reflexivity).
  assert (Hst2 : st2 = set_monitoring false None st1).
  { unfold st2, stopMonitoring. rewrite Hon. reflexivity. }
  split; [exact Hon|]. split; [rewrite Hst1; cbn; rewrite Hc; reflexivity|].
  split; [unfold startMonitoring; rewrite Hon; reflexivity|].
  split; [rewrite Hst2; reflexivity|]. split; [rewrite Hst2; reflexivity|].
  split.
  - rewrite Hst2, Hst1. unfold getCurrentCSV. cbn. rewrite Hcur, Hlast. reflexivity.
  - unfold startMonitoring. rewrite Hst2 at 1. cbn [isMonitoring set_monitoring snd].
    unfold checkForNewCSV. rewrite (check_files_found _ _ _ _ Hfound').
    rewrite is_new_set_monitoring, (is_new_same_name_stamp _ _ _ Hname Hstamp).
    assert (Hold : is_new st2 f = false).
    { apply is_new_false. rewrite Hst2, Hst1. cbn. auto. }
    rewrite Hold. reflexivity.
Qed.

(** X7, witness: the sample monitor is started, stopped and started again. *)
Lemma stop_and_start_again_is_quiet_witness :
  let st1 := (startMonitoring (serving content_12) monitor0).1 in
  (isMonitoring monitor0 = false
   /\ findLatestCSV (getCSVFiles (serving content_12)) = Return (Some file_12))
  /\ rebalance_calls (startMonitoring (serving content_12) monitor0).2 =
       [(parseCSV content_12, name_12)]
  /\ (startMonitoring (serving content_12) (stopMonitoring st1)).2 = [].
Proof.
  split; [split; reflexivity|]. split; [reflexivity|].
  exact (proj2 (proj2 (proj2 (proj2 (proj2 (proj2
    (stop_and_start_again_is_quiet (serving content_12) (serving content_12)
       monitor0 file_12 file_12 eq_refl eq_refl eq_refl eq_refl eq_refl))))))).
Defined.

(** X5. After a check, getCurrentCSV reports the name and modification
    time of the file the selector returned for the list, whether or not its
    processing succeeded; when the selector returns no file or throws, it
    reports what it reported before. *)
Theorem getCurrentCSV_after_check (net : Network) (st : state)
    (csvFiles : list CSVFile) :
  getCurrentCSV (check_files net st csvFiles).1 =
  match findLatestCSV csvFiles with
  | Return (Some f) => (Some (filename f), Some (modified f))
  | _ => getCurrentCSV st
  end.
Proof.
  destruct (findLatestCSV csvFiles) as [[f|]|msg] eqn:Hf.
  - pose proof (check_files_tracks net st _ _ Hf) as Ht.
    apply is_new_false in Ht as [Hc Hl]. unfold getCurrentCSV.
    rewrite Hc, Hl. reflexivity.
  - destruct (check_files_cases net st csvFiles) as [->|(f & Hf' & _)];
      [reflexivity | congruence].
  - destruct (check_files_cases net st csvFiles) as [->|(f & Hf' & _)];
      [reflexivity | congruence].
Qed.

(** X4. A rebalancing sets the status bar first and ends with exactly one
    notification, with at most one call of the callback between them: one
    call, with the rows parsed from the loaded content, when the content
    loads and a callback is installed, and none otherwise. The notification
    is a success exactly when the content loaded and the callback, if one
    is installed, returned; a success reports the number of lines after the
    header line. *)
Theorem rebalancing_ends_with_one_notification
    (net : Network) (cb : option callback) (csvFilename : string) :
  let evs := triggerRebalancing net cb csvFilename in
  (length (rebalance_calls evs) <= 1)%nat
  /\ rebalance_calls evs =
       match load_csv net csvFilename, cb with
       | Return csvText, Some _ => [(parseCSV csvText, csvFilename)]
       | _, _ => []
       end
  /\ exists message type,
    evs = (StatusBar csvFilename ::
           map (fun c => Rebalance c.1 c.2) (rebalance_calls evs) ++
           [Notification message type])%list
    /\ (type = "success" \/ type = "error")
    /\ (type = "success" <->
        exists csvText,
          load_csv net csvFilename = Return csvText /\
          forall f, cb = Some f ->
            exists u, f (parseCSV csvText) csvFilename = Return u)
    /\ (type = "success" ->
        exists csvText,
          load_csv net csvFilename = Return csvText /\
          message = "Portfolio rebalanced with " ++
                    pretty (length (data_lines csvText)) ++ " positions").
Proof.
  cbn zeta. split; [apply rebalance_calls_length_trigger|].
  split; [apply rebalance_calls_trigger|].
  rewrite rebalance_calls_trigger. unfold triggerRebalancing.
  destruct (load_csv net csvFilename) as [csvText|msg].
  - destruct cb as [f|].
    + destruct (f (parseCSV csvText) csvFilename) as [u|msg] eqn:Hcall.
      * eexists _, "success". split; [reflexivity|]. split; [auto|]. split.
        -- split; [|reflexivity]. intros _. exists csvText. split; [reflexivity|].
           intros f' [= <-]. eauto.
        -- intros _. exists csvText. split; [reflexivity|].
           rewrite parseCSV_rows, length_map. reflexivity.
      * eexists _, "error". split; [reflexivity|]. split; [auto|]. split.
        -- split; [discriminate|]. intros (t & [= <-] & H).
           destruct (H f eq_refl) as [u Hu]. congruence.
        -- discriminate.
    + eexists _, "success". split; [reflexivity|]. split; [auto|]. split.
      * split; [|reflexivity]. intros _. exists csvText. split; [reflexivity|].
        discriminate.
      * intros _. exists csvText. split; [reflexivity|].
        rewrite parseCSV_rows, length_map. reflexivity.
  - eexists _, "error". split; [reflexivity|]. split; [auto|]. split.
    + split; [discriminate|]. intros (t & [=] & _).
    + discriminate.
Qed.

(** ** parseCSV: rows, widths and blank lines *)

Lemma split_nonempty c s : split c s <> [].
Proof.
  destruct s as [|a s]; simpl; [discriminate|].
  destruct (Ascii.eqb a c); [discriminate|].
  destruct (split c s); discriminate.
Qed.

Lemma split_cons c a s :
  split c (String a s) =
  if Ascii.eqb a c then EmptyString :: split c s
  else String a (hd "" (split c s)) :: tl (split c s).
Proof.
  simpl. destruct (Ascii.eqb a c); [reflexivity|].
  pose proof (split_nonempty c s). destruct (split c s); [contradiction|reflexivity].
Qed.

Lemma length_split_LF s : length (split LF s) = S (count_LF s).
Proof.
  induction s as [|a s IH]; [reflexivity|].
  rewrite split_cons. cbn [count_LF]. destruct (Ascii.eqb a LF); cbn [length].
  - rewrite IH. reflexivity.
  - rewrite length_tl, IH. simpl. lia.
Qed.

(** X8. parseCSV returns as many rows as the trimmed text has line feeds:
    no row for an empty text or for a header line alone. *)
Theorem parseCSV_row_count (csvText : string) :
  length (parseCSV csvText) = count_LF (trim csvText)
  /\ (parseCSV csvText = [] <-> count_LF (trim csvText) = 0%nat).
Proof.
  assert (Hlen : length (parseCSV csvText) = count_LF (trim csvText)).
  { rewrite parseCSV_rows, length_map. unfold data_lines.
    rewrite length_tl, length_split_LF. simpl. lia. }
  split; [exact Hlen|]. rewrite <- Hlen. split.
  - intros ->. reflexivity.
  - apply length_zero_iff_nil.
Qed.

(** The cell read at a place: the text there, trimmed, or the empty string. *)
Lemma cell_trim values i :
  cell values i = match values !! i with Some v => trim v | None => "" end.
Proof.
  unfold cell. destruct (values !! i) as [v|]; [|reflexivity].
  destruct (String.eqb_spec v ""); [subst; reflexivity | reflexivity].
Qed.

(** A row depends on the line only through the cells under the headers. *)
Lemma parse_row_ext headers values values' :
  (forall i, (i < length headers)%nat -> cell values i = cell values' i) ->
  parse_row headers values = parse_row headers values'.
Proof.
  induction headers as [|h headers IH] using rev_ind; intros Hext; [reflexivity|].
  rewrite !parse_row_snoc, IH, (Hext (length headers)).
  - reflexivity.
  - rewrite length_app. simpl. lia.
  - intros i Hi. apply Hext. rewrite length_app. simpl. lia.
Qed.

(** X9. A row is read as if its line were padded with empty cells to the
    number of headers and cut there: cells beyond the last header are
    dropped, missing cells are empty strings. *)
Theorem parse_row_header_width (headers values : list string) :
  parse_row headers values =
  parse_row headers
    (take (length headers) (values ++ replicate (length headers) "")).
Proof.
  apply parse_row_ext. intros i Hi. rewrite !cell_trim.
  rewrite lookup_take_lt by exact Hi.
  destruct (decide (i < length values)%nat) as [Hlt|Hge].
  - rewrite lookup_app_l by exact Hlt. reflexivity.
  - rewrite lookup_app_r by lia.
    rewrite (lookup_ge_None_2 values i) by lia.
    rewrite lookup_replicate_2 by lia. reflexivity.
Qed.

(** Every cell of a row is a cell of the line. *)
Lemma parse_row_values headers values key v :
  parse_row headers values !! key = Some v ->
  exists i, (i < length headers)%nat /\ v = cell values i.
Proof.
  induction headers as [|h headers IH] using rev_ind; [discriminate|].
  rewrite parse_row_snoc, length_app. simpl.
  assert (Hold : parse_row headers values !! key = Some v ->
                 exists i, (i < length headers + 1)%nat /\ v = cell values i).
  { intros H. destruct (IH H) as (i & Hi & ->). exists i. split; [lia|reflexivity]. }
  unfold assign. destruct (String.eqb (trim h) "__proto__"); [exact Hold|].
  destruct (decide (trim h = key)) as [<-|Hne].
  - rewrite lookup_insert_eq. intros [= <-]. exists (length headers). split; [lia|reflexivity].
  - rewrite lookup_insert_ne by exact Hne. exact Hold.
Qed.

(** X10. An empty line between the data lines is not skipped: it gives a
    row whose keys are the trimmed header names other than [__proto__], as
    for every other line, with the empty string in every cell. *)
Theorem blank_line_gives_blank_row (csvText : string) (k : nat)
    (Hblank : data_lines csvText !! k = Some "") :
  exists row,
    parseCSV csvText !! k = Some row
    /\ dom row = list_to_set (own_keys (header_names csvText))
    /\ (forall key, In key (own_keys (header_names csvText)) -> row !! key = Some "")
    /\ forall key v, row !! key = Some v -> v = "".
Proof.
  assert (Hcells : forall key v,
            parse_row (raw_headers csvText) (split "," "") !! key = Some v -> v = "").
  { intros key v Hv. apply parse_row_values in Hv as (i & _ & ->).
    destruct i as [|[|i]]; reflexivity. }
  exists (parse_row (raw_headers csvText) (split "," "")). split; [|split; [|split]].
  - rewrite parseCSV_rows, list_lookup_fmap, Hblank. reflexivity.
  - apply parse_row_dom.
  - intros key Hkey.
    assert (Hdom : key ∈ dom (parse_row (raw_headers csvText) (split "," ""))).
    { rewrite parse_row_dom. apply elem_of_list_to_set, list_elem_of_In. exact Hkey. }
    apply elem_of_dom in Hdom as [v Hv]. rewrite Hv, (Hcells key v Hv). reflexivity.
  - exact Hcells.
Qed.

(** X10, witness: a file with an empty line after its header line. *)
Lemma blank_line_gives_blank_row_witness :
  let csvText := "a,b" ++ String LF (String LF "1,2") in
  data_lines csvText !! 0%nat = Some ""
  /\ length (parseCSV csvText) = 2%nat
  /\ exists row,
       parseCSV csvText !! 0%nat = Some row
       /\ dom row = list_to_set (own_keys (header_names csvText))
       /\ (forall key, In key (own_keys (header_names csvText)) -> row !! key = Some "")
       /\ forall key v, row !! key = Some v -> v = "".
Proof.
  split; [reflexivity|]. split; [reflexivity|].
  exact (blank_line_gives_blank_row ("a,b" ++ String LF (String LF "1,2")) 0%nat
           eq_refl).
Defined.

(** ** parseCSV: carriage returns and surrounding white space *)


Lemma rev_app_app s t acc :
  String.rev_app (s ++ t) acc = String.rev_app t (String.rev_app s acc).
Proof. revert acc. induction s as [|x s IH]; intros acc; simpl; [reflexivity | apply IH]. Qed.

Lemma rev_app_eq s acc : String.rev_app s acc = String.rev s ++ acc.
Proof.
  unfold String.rev. revert acc. induction s as [|x s IH]; intros acc; simpl.
  - reflexivity.
  - rewrite (IH (String x acc)), (IH (String x "")), sapp_assoc. reflexivity.
Qed.

Lemma rev_cons a s : String.rev (String a s) = String.rev s ++ String a "".
Proof. unfold String.rev at 1. simpl. apply rev_app_eq. Qed.

Lemma rev_snoc a s : String.rev (s ++ String a "") = String a (String.rev s).
Proof. unfold String.rev at 1. rewrite rev_app_app. reflexivity. Qed.

Lemma all_space_snoc a s :
  all_space (s ++ String a "") = all_space s && is_space a.
Proof.
  induction s as [|x s IH]; simpl.
  - apply andb_true_r.
  - rewrite IH, andb_assoc. reflexivity.
Qed.

Lemma all_space_rev s : all_space (String.rev s) = all_space s.
Proof.
  induction s as [|x s IH]; [reflexivity|].
  rewrite rev_cons, all_space_snoc, IH. simpl. apply andb_comm.
Qed.

Lemma trimStart_all_space s : all_space s = true -> trimStart s = "".
Proof.
  induction s as [|x s IH]; [reflexivity|]. simpl.
  intros H. apply andb_true_iff in H as [-> H]. exact (IH H).
Qed.

Lemma trimStart_snoc a s :
  trimStart (s ++ String a "") =
  if all_space s then (if is_space a then "" else String a "")
  else trimStart s ++ String a "".
Proof.
  induction s as [|x s IH]; simpl; [destruct (is_space a); reflexivity|].
  destruct (is_space x); simpl; [exact IH | reflexivity].
Qed.

(** [trimEnd] read from the left. *)
Lemma trimEnd_cons a s :
  trimEnd (String a s) =
  if all_space (String a s) then "" else String a (trimEnd s).
Proof.
  unfold trimEnd. rewrite rev_cons, trimStart_snoc, all_space_rev. simpl.
  destruct (all_space s) eqn:Hs.
  - rewrite andb_true_r. rewrite (trimStart_all_space (String.rev s))
      by (rewrite all_space_rev; exact Hs).
    destruct (is_space a); reflexivity.
  - rewrite andb_false_r, rev_snoc. reflexivity.
Qed.

Lemma trimEnd_nil : trimEnd "" = "".
Proof. reflexivity. Qed.

Lemma is_space_CR : is_space CR = true.
Proof. reflexivity. Qed.

Lemma is_space_LF : is_space LF = true.
Proof. reflexivity. Qed.

Lemma eqb_LF_space a : Ascii.eqb a LF = true -> is_space a = true.
Proof. intros H. apply Ascii.eqb_eq in H. subst. reflexivity. Qed.

Lemma trimStart_crlf s : trimStart (crlf s) = crlf (trimStart s).
Proof.
  induction s as [|a s IH]; [reflexivity|]. cbn [crlf].
  destruct (Ascii.eqb a LF) eqn:Ha.
  - cbn [trimStart]. rewrite is_space_CR, (eqb_LF_space a Ha).
    apply Ascii.eqb_eq in Ha. subst a. rewrite is_space_LF. exact IH.
  - cbn [trimStart]. destruct (is_space a); [exact IH|].
    cbn [crlf]. rewrite Ha. reflexivity.
Qed.

Lemma all_space_crlf s : all_space (crlf s) = all_space s.
Proof.
  induction s as [|a s IH]; [reflexivity|]. cbn [crlf].
  destruct (Ascii.eqb a LF) eqn:Ha.
  - apply Ascii.eqb_eq in Ha. subst a. cbn [all_space].
    rewrite is_space_CR, is_space_LF, IH. reflexivity.
  - cbn [all_space]. rewrite IH. reflexivity.
Qed.

Lemma trimEnd_crlf s : trimEnd (crlf s) = crlf (trimEnd s).
Proof.
  induction s as [|a s IH]; [reflexivity|].
  rewrite (trimEnd_cons a s).
  destruct (all_space (String a s)) eqn:Hall.
  - pose proof (all_space_crlf (String a s)) as Hc. rewrite Hall in Hc.
    destruct (crlf (String a s)) as [|b t] eqn:Ht; [reflexivity|].
    rewrite trimEnd_cons, Hc. reflexivity.
  - cbn [crlf]. destruct (Ascii.eqb a LF) eqn:Ha.
    + apply Ascii.eqb_eq in Ha. subst a.
      cbn [all_space] in Hall. rewrite is_space_LF in Hall. cbn in Hall.
      rewrite !trimEnd_cons. cbn [all_space].
      rewrite is_space_CR, is_space_LF, all_space_crlf, Hall, IH. reflexivity.
    + rewrite trimEnd_cons. cbn [all_space]. rewrite all_space_crlf.
      cbn [all_space] in Hall. rewrite Hall, IH. reflexivity.
Qed.

Lemma trim_crlf s : trim (crlf s) = crlf (trim s).
Proof. unfold trim. rewrite trimStart_crlf, trimEnd_crlf. reflexivity. Qed.

Lemma trimEnd_snoc_CR s : trimEnd (s ++ String CR "") = trimEnd s.
Proof. unfold trimEnd. rewrite rev_snoc. reflexivity. Qed.

Lemma trim_snoc_CR s : trim (s ++ String CR "") = trim s.
Proof.
  unfold trim. rewrite trimStart_snoc, is_space_CR.
  destruct (all_space s) eqn:Hs.
  - rewrite (trimStart_all_space s Hs). reflexivity.
  - apply trimEnd_snoc_CR.
Qed.

Lemma snoc_but_last_cons c x y rest :
  snoc_but_last c (x :: y :: rest) = (x ++ String c "") :: snoc_but_last c (y :: rest).
Proof. reflexivity. Qed.

Lemma snoc_last_cons c x y rest :
  snoc_last c (x :: y :: rest) = x :: snoc_last c (y :: rest).
Proof. reflexivity. Qed.

Lemma split_LF_crlf s : split LF (crlf s) = snoc_but_last CR (split LF s).
Proof.
  induction s as [|a s IH]; [reflexivity|]. cbn [crlf].
  pose proof (split_nonempty LF s) as Hne.
  destruct (Ascii.eqb a LF) eqn:Ha.
  - rewrite (split_cons LF a s), Ha.
    rewrite (split_cons LF CR), (split_cons LF LF). cbn [Ascii.eqb].
    change (Ascii.eqb CR LF) with false. change (Ascii.eqb LF LF) with true.
    cbn [hd tl]. rewrite IH.
    destruct (split LF s) as [|y rest]; [contradiction|]. reflexivity.
  - rewrite (split_cons LF a s), (split_cons LF a (crlf s)), Ha, IH.
    destruct (split LF s) as [|y [|z rest]]; [contradiction| |]; reflexivity.
Qed.

Lemma split_comma_snoc_CR s :
  split "," (s ++ String CR "") = snoc_last CR (split "," s).
Proof.
  induction s as [|a s IH]; [reflexivity|].
  pose proof (split_nonempty "," s) as Hne.
  change (String a s ++ String CR "") with (String a (s ++ String CR "")).
  rewrite !split_cons, IH.
  destruct (Ascii.eqb a ","); destruct (split "," s) as [|y [|z rest]];
    try contradiction; reflexivity.
Qed.

Lemma map_trim_snoc_last parts :
  map trim (snoc_last CR parts) = map trim parts.
Proof.
  induction parts as [|x [|y rest] IH]; [reflexivity| |].
  - simpl. rewrite trim_snoc_CR. reflexivity.
  - rewrite snoc_last_cons. cbn [map]. rewrite IH. reflexivity.
Qed.

Lemma cell_map_trim values i :
  cell values i = default "" (map trim values !! i).
Proof.
  rewrite cell_trim, list_lookup_fmap. destruct (values !! i); reflexivity.
Qed.

Lemma keyed_row_snoc keys k values :
  keyed_row (keys ++ [k]) values =
  assign k (cell values (length keys)) (keyed_row keys values).
Proof.
  unfold keyed_row. rewrite imap_app, foldl_app. simpl.
  rewrite Nat.add_0_r. reflexivity.
Qed.

Lemma parse_row_keyed headers values :
  parse_row headers values = keyed_row (map trim headers) values.
Proof.
  induction headers as [|h headers IH] using rev_ind; [reflexivity|].
  rewrite parse_row_snoc, map_app. cbn [map].
  rewrite keyed_row_snoc, length_map, IH. reflexivity.
Qed.

(** A carriage return at the end of the header line or of a data line
    changes no row. *)
Lemma parse_row_CR headers line :
  parse_row (split "," (headers ++ String CR "")) (split "," (line ++ String CR "")) =
    parse_row (split "," headers) (split "," line)
  /\ parse_row (split "," (headers ++ String CR "")) (split "," line) =
    parse_row (split "," headers) (split "," line).
Proof.
  rewrite !(parse_row_keyed (split "," (headers ++ String CR ""))).
  rewrite !(parse_row_keyed (split "," headers)).
  rewrite split_comma_snoc_CR, map_trim_snoc_last. split; [|reflexivity].
  rewrite <- !parse_row_keyed. apply parse_row_ext. intros i _.
  rewrite !cell_map_trim, split_comma_snoc_CR, map_trim_snoc_last. reflexivity.
Qed.

(** X11. Windows line ends change nothing: the text with a carriage
    return before every line feed parses to the same rows, with the same
    keys, as the text itself. *)
Theorem parseCSV_crlf (csvText : string) :
  parseCSV (crlf csvText) = parseCSV csvText.
Proof.
  unfold parseCSV. rewrite trim_crlf, split_LF_crlf.
  pose proof (split_nonempty LF (trim csvText)) as Hne.
  destruct (split LF (trim csvText)) as [|h [|l rest]]; [contradiction|reflexivity|].
  rewrite snoc_but_last_cons. cbn [hd tl].
  generalize (l :: rest) as lines. intros lines.
  induction lines as [|x [|y more] IH]; [reflexivity| |].
  - simpl. rewrite (proj2 (parse_row_CR h x)). reflexivity.
  - rewrite snoc_but_last_cons. cbn [map]. rewrite IH.
    rewrite (proj1 (parse_row_CR h x)). reflexivity.
Qed.

Example parseCSV_crlf_sample :
  crlf content_12 =
    "ticker,target_notional,target_contracts" ++ String CR (String LF
    "AAA,500000,10" ++ String CR (String LF "BBB,-250000,-5"))
  /\ map (fun row => (row !! "target_contracts", row !! ("target_contracts" ++ String CR "")))
       (parseCSV (crlf content_12)) = [(Some "10", None); (Some "-5", None)].
Proof. split; reflexivity. Qed.

Lemma sapp_nil_r (a : string) : a ++ "" = a.
Proof.
  induction a as [|x a IH]; [reflexivity|].
  change (String x (a ++ "") = String x a). rewrite IH. reflexivity.
Qed.

Lemma rev_app_distr_s s t : String.rev (s ++ t) = String.rev t ++ String.rev s.
Proof. unfold String.rev at 1. rewrite rev_app_app. apply rev_app_eq. Qed.

Lemma all_space_app s t : all_space (s ++ t) = all_space s && all_space t.
Proof.
  induction s as [|a s IH]; [reflexivity|].
  change (all_space (String a (s ++ t)) = all_space (String a s) && all_space t).
  cbn [all_space]. rewrite IH, andb_assoc. reflexivity.
Qed.

Lemma trimStart_space_app pre s :
  all_space pre = true -> trimStart (pre ++ s) = trimStart s.
Proof.
  induction pre as [|a pre IH]; [reflexivity|]. cbn [all_space].
  intros H. apply andb_true_iff in H as [Ha H].
  change (trimStart (String a (pre ++ s)) = trimStart s).
  cbn [trimStart]. rewrite Ha. exact (IH H).
Qed.

Lemma trimStart_app_not_space s t :
  all_space s = false -> trimStart (s ++ t) = trimStart s ++ t.
Proof.
  induction s as [|a s IH]; [discriminate|]. cbn [all_space].
  change (String a s ++ t) with (String a (s ++ t)). cbn [trimStart].
  destruct (is_space a); [exact IH | reflexivity].
Qed.

Lemma trimEnd_app_space s post :
  all_space post = true -> trimEnd (s ++ post) = trimEnd s.
Proof.
  intros H. unfold trimEnd. rewrite rev_app_distr_s, trimStart_space_app.
  - reflexivity.
  - rewrite all_space_rev. exact H.
Qed.

Lemma trim_surrounded pre s post :
  all_space pre = true -> all_space post = true ->
  trim (pre ++ s ++ post) = trim s.
Proof.
  intros Hpre Hpost. unfold trim. rewrite trimStart_space_app by exact Hpre.
  destruct (all_space s) eqn:Hs.
  - rewrite (trimStart_all_space s Hs), trimStart_all_space;
      [reflexivity | rewrite all_space_app, Hs, Hpost; reflexivity].
  - rewrite trimStart_app_not_space by exact Hs.
    apply trimEnd_app_space. exact Hpost.
Qed.

(** X12. White space and line ends before and after the text change
    nothing: in particular a final line feed adds no row. *)
Theorem parseCSV_ignores_surrounding_space (pre csvText post : string)
    (Hpre : all_space pre = true) (Hpost : all_space post = true) :
  parseCSV (pre ++ csvText ++ post) = parseCSV csvText.
Proof.
  unfold parseCSV. rewrite trim_surrounded by assumption. reflexivity.
Qed.

(** X12, witness: the sample file after an empty line and before two. *)
Lemma parseCSV_ignores_surrounding_space_witness :
  (all_space (String LF " ") = true /\ all_space (String LF (String LF "")) = true)
  /\ parseCSV (String LF " " ++ content_12 ++ String LF (String LF "")) =
     parseCSV content_12
  /\ parseCSV (content_12 ++ String LF (String LF "")) = parseCSV content_12.
Proof.
  split; [split; reflexivity|]. split.
  - exact (parseCSV_ignores_surrounding_space (String LF " ") content_12
             (String LF (String LF "")) eq_refl eq_refl).
  - exact (parseCSV_ignores_surrounding_space "" content_12
             (String LF (String LF "")) eq_refl eq_refl).
Defined.

(** ** The portfolio logger: readers, record, quoting, chart and reading back *)


Section MoreLoggerFacts.
Context {N : JSNumber} {D : JSDate} {P : JSDateParse}.

Lemma or0_zero_or_nonzero x : zero_or_nonzero (or0 x).
Proof.
  unfold or0, truthy, zero_or_nonzero.
  destruct (ncompare x (lit 0)) as [[]|] eqn:Hx; auto.
Qed.

Lemma read_element_zero_or_nonzero cls id page :
  zero_or_nonzero (read_element cls id page).
Proof.
  unfold read_element. destruct (elements page !! id).
  - apply or0_zero_or_nonzero.
  - left. reflexivity.
Qed.

(** X13. The readers of the page never return NaN: the portfolio value, the
    daily P&L, its percentage, the cumulative P&L and the two total
    notionals are each the number 0 or a number that compares strictly
    with 0. *)
Theorem readers_never_return_NaN (page : Page) :
  zero_or_nonzero (getPortfolioValue page)
  /\ zero_or_nonzero (getDailyPnL page)
  /\ zero_or_nonzero (getDailyPnLPercent page)
  /\ zero_or_nonzero (getCumulativePnL page)
  /\ zero_or_nonzero (getTotalNotionalData page).1
  /\ zero_or_nonzero (getTotalNotionalData page).2.
Proof.
  repeat split; try apply read_element_zero_or_nonzero.
  unfold getCumulativePnL. destruct (cumulativePnL page).
  - apply or0_zero_or_nonzero.
  - left. reflexivity.
Qed.

(** X14. The record built for a cycle has exactly the twenty-six headers of
    the log as fields, each header once: every cell of the row has its
    field. *)
Theorem record_fields_are_the_headers
    (page : Page) (now : Z) (csvFilename action : string) :
  dom (gatherPortfolioData page now csvFilename action) = list_to_set logHeaders
  /\ NoDup logHeaders
  /\ length logHeaders = 26%nat
  /\ forall header, In header logHeaders ->
       is_Some (gatherPortfolioData page now csvFilename action !! header).
Proof.
  assert (Hdom : dom (gatherPortfolioData page now csvFilename action) =
                 list_to_set logHeaders).
  { unfold gatherPortfolioData. cbn zeta. rewrite dom_list_to_map_L.
    reflexivity. }
  split; [exact Hdom|]. split; [|split; [reflexivity|]].
  - assert (H : bool_decide (NoDup logHeaders) = true) by (vm_compute; reflexivity).
    apply bool_decide_eq_true in H. exact H.
  - intros header Hin. apply elem_of_dom. rewrite Hdom.
    apply elem_of_list_to_set, list_elem_of_In. exact Hin.
Qed.

Lemma drop_last_snoc s c : drop_last (s ++ String c "") = s.
Proof.
  induction s as [|a s IH]; [reflexivity|].
  change (String a s ++ String c "") with (String a (s ++ String c "")).
  cbn [drop_last]. rewrite IH.
  destruct s; reflexivity.
Qed.

Lemma undouble_double_quotes s : undouble (double_quotes s) = s.
Proof.
  induction s as [|a s IH]; [reflexivity|]. cbn [double_quotes].
  destruct (Ascii.eqb a dquote) eqn:Ha.
  - apply Ascii.eqb_eq in Ha. subst a. cbn [undouble].
    change (Ascii.eqb dquote dquote) with true. cbn iota. rewrite IH. reflexivity.
  - cbn [undouble]. rewrite Ha, IH. reflexivity.
Qed.

(** X15. The quoting of appendToLog loses nothing: a text field with a comma
    or a double quote is written between double quotes with its quotes
    doubled, any other text field is written as it is, and reading the cell
    back as CSV gives the field. *)
Theorem quoted_cell_reads_back (logData : gmap string jsval)
    (header s : string)
    (Hfield : logData !! header = Some (VString s)) :
  unquote (csv_cell logData header) = s
  /\ (includes_char "," s || includes_char dquote s = false ->
      csv_cell logData header = s)
  /\ (includes_char "," s || includes_char dquote s = true ->
      csv_cell logData header = String dquote (double_quotes s) ++ String dquote "").
Proof.
  unfold csv_cell. rewrite Hfield.
  destruct (includes_char "," s || includes_char dquote s) eqn:Hq.
  - split; [|split; [discriminate|reflexivity]].
    change (unquote (String dquote (double_quotes s ++ String dquote "")) = s).
    cbn [unquote]. change (Ascii.eqb dquote dquote) with true. cbn iota.
    rewrite drop_last_snoc. apply undouble_double_quotes.
  - split; [|split; [reflexivity|discriminate]].
    apply orb_false_iff in Hq as [_ Hq].
    destruct s as [|a s]; [reflexivity|]. cbn [unquote].
    cbn [includes_char] in Hq. apply orb_false_iff in Hq as [-> _]. reflexivity.
Qed.

Lemma foldl_invariant {A B} (Inv : A -> Prop) (f : A -> B -> A) (l : list B) (a : A) :
  Inv a -> (forall a x, In x l -> Inv a -> Inv (f a x)) -> Inv (foldl f a l).
Proof.
  revert a. induction l as [|x l IH]; intros a Ha Hstep; [exact Ha|].
  cbn [foldl]. apply IH.
  - apply Hstep; [left; reflexivity | exact Ha].
  - intros a' y Hy. apply Hstep. right. exact Hy.
Qed.

(** X16. The top long position reported is the placeholder [N/A] with
    weight 0 or the symbol and weight of a long position of the portfolio,
    and the top short one is the placeholder or a short position of the
    portfolio: a position is never reported on the other side. *)
Theorem top_positions_come_from_the_portfolio (page : Page) :
  let positions := default [] (portfolioData page) in
  let top := getTopPositions page in
  (top.1 = no_position \/
   exists p, In p positions /\ side_of p = LONG /\
             top.1 = (symbol_of p, weight_of p))
  /\ (top.2 = no_position \/
      exists p, In p positions /\ side_of p = SHORT /\
                top.2 = (symbol_of p, weight_of p)).
Proof.
  cbn zeta. unfold getTopPositions.
  destruct (portfolioData page) as [[|p0 ps]|]; cbn [default];
    try (split; left; reflexivity).
  apply (foldl_invariant
    (fun top =>
       (top.1 = no_position \/
        exists p, In p (p0 :: ps) /\ side_of p = LONG /\
                  top.1 = (symbol_of p, weight_of p))
       /\ (top.2 = no_position \/
           exists p, In p (p0 :: ps) /\ side_of p = SHORT /\
                     top.2 = (symbol_of p, weight_of p)))).
  - split; left; reflexivity.
  - intros top p Hp [Hlong Hshort].
    destruct (side_of p) eqn:Hside; split_if; cbn [fst snd];
      (split; [try exact Hlong | try exact Hshort]);
      right; exists p; auto.
Qed.

(** X19. Every entry getRecentLogs returns is an entry of a log file that
    is there and not empty, has a date field that parses as a date, and
    that date is not before the cutoff: entries without a date or with an
    invalid date are dropped. *)
Theorem getRecentLogs_keeps_dated_entries
    (w : World) (now days : Z) (entry : gmap string string)
    (Hin : In entry (getRecentLogs w now days)) :
  (exists content,
     getLogContent w = Some content /\ content <> "" /\
     In entry (log_entries content))
  /\ exists date t,
       entry !! "date" = Some date /\ parseDate date = Some t /\
       daysBefore now days <= t.
Proof.
  unfold getRecentLogs in Hin. destruct (getLogContent w) as [content|]; [|destruct Hin].
  destruct (String.eqb_spec content "") as [|Hne]; [destruct Hin|].
  apply filter_In in Hin as [Hentry Hrecent]. split; [eauto|].
  unfold is_recent in Hrecent.
  destruct (entry !! "date") as [date|] eqn:Hdate; [|discriminate].
  destruct (parseDate date) as [t|] eqn:Ht; [|discriminate].
  exists date, t. split; [reflexivity|]. split; [exact Ht|]. lia.
Qed.

Lemma chartPoints_say e w : chartPoints (say e w) = chartPoints w.
Proof. reflexivity. Qed.

(** X17. Logging before execution never touches the chart. Logging after
    execution adds one point, the date and the portfolio value, exactly
    when the chart function is installed and the portfolio value is a
    number other than zero; otherwise it adds none. *)
Theorem chart_gets_nonzero_post_execution_values (w : World) (c : Cycle) :
  chartPoints (run_cycle w c) = (chartPoints w ++ plotted c)%list.
Proof.
  unfold run_cycle, plotted, logPreExecution, logPostExecution.
  destruct (action c); cbn zeta.
  - unfold appendToLog. rewrite !chartPoints_say, app_nil_r. reflexivity.
  - rewrite chartPoints_say.
    change (default VUndefined
              (gatherPortfolioData (page c) (clock c) (csv c) "post_execution"
                 !! "portfolio_value"))
      with (VNumber (getPortfolioValue (page c))).
    change (default VUndefined
              (gatherPortfolioData (page c) (clock c) (csv c) "post_execution"
                 !! "date"))
      with (VString (hd "" (split "T" (toISOString (clock c))))).
    cbn [truthy_val].
    destruct (addPortfolioValueDataPoint (page c) && truthy (getPortfolioValue (page c))).
    + reflexivity.
    + unfold appendToLog. rewrite !chartPoints_say, app_nil_r. reflexivity.
Qed.

End MoreLoggerFacts.



Section RecentLogs.
Context {N : JSNumber} {D : JSDate} {P : JSDateParse}.

Lemma log_entry_snoc headers h values :
  log_entry (headers ++ [h]) values =
  assign h (default "" (values !! length headers)) (log_entry headers values).
Proof.
  unfold log_entry. rewrite imap_app, foldl_app. simpl.
  rewrite Nat.add_0_r. reflexivity.
Qed.

(** The fields of an entry are the header cells as they are written, other
    than [__proto__]. *)
Lemma log_entry_dom headers values :
  dom (log_entry headers values) = list_to_set (own_keys headers).
Proof.
  induction headers as [|h headers IH] using rev_ind.
  - unfold log_entry. simpl. apply dom_empty_L.
  - rewrite log_entry_snoc, dom_assign, IH, own_keys_app, list_to_set_app_L.
    apply (comm_L (∪)).
Qed.

(** X20. The date column is found by its exact name: when no cell of the
    header line of the log is [date] as written, without trimming,
    getRecentLogs returns no entry. *)
Theorem getRecentLogs_needs_date_column (w : World) (now days : Z)
    (content : string)
    (Hlog : getLogContent w = Some content)
    (Hnone : ~ In "date" (split "," (hd "" (split LF (trim content))))) :
  getRecentLogs w now days = [].
Proof.
  unfold getRecentLogs. rewrite Hlog. split_if; [reflexivity|].
  unfold log_entries.
  induction (tl (split LF (trim content))) as [|line lines IH]; [reflexivity|].
  cbn [map List.filter]. rewrite IH.
  assert (Hdate : log_entry (split "," (hd "" (split LF (trim content))))
                    (split "," line) !! "date" = None).
  { apply not_elem_of_dom.
    rewrite log_entry_dom, elem_of_list_to_set, list_elem_of_In, in_own_keys.
    intros [H _]. exact (Hnone H). }
  unfold is_recent. rewrite Hdate. reflexivity.
Qed.

End RecentLogs.

(** X20, witness: a log whose date column is named with a space before. *)
Lemma getRecentLogs_needs_date_column_witness :
  (getLogContent world_spaced =
     Some ("timestamp, date" ++ String LF "2025-10-12T00:30:00.000Z, 2025-10-12")
   /\ ~ In "date" ["timestamp"; " date"])
  /\ getRecentLogs world_spaced half_past_midnight 7 = [].
Proof.
  assert (H : ~ In "date" ["timestamp"; " date"]).
  { intros [H|[H|[]]]; discriminate H. }
  split; [split; [reflexivity|exact H]|].
  exact (getRecentLogs_needs_date_column world_spaced half_past_midnight 7 _
           eq_refl H).
Defined.

(** X19, witness: of three entries, one is recent, one old and one has no
    valid date. *)
Lemma getRecentLogs_keeps_dated_entries_witness :
  let entry := log_entry ["timestamp"; "date"; "portfolio_value"]
                 ["2025-10-12T00:30:00.000Z"; "2025-10-12"; "1375335.19"] in
  In entry (getRecentLogs world_log half_past_midnight 7)
  /\ map (fun e => e !! "date") (getRecentLogs world_log half_past_midnight 7) =
       [Some "2025-10-12"]
  /\ exists date t,
       entry !! "date" = Some date /\ parseDate date = Some t /\
       daysBefore half_past_midnight 7 <= t.
Proof.
  intros entry.
  assert (H : bool_decide (entry ∈ getRecentLogs world_log half_past_midnight 7)
              = true) by (vm_compute; reflexivity).
  pose proof (proj1 (list_elem_of_In
                       (getRecentLogs world_log half_past_midnight 7) entry)
                (proj1 (bool_decide_eq_true _) H)) as Hin.
  split; [exact Hin|]. split; [vm_compute; reflexivity|].
  exact (proj2 (getRecentLogs_keeps_dated_entries world_log half_past_midnight 7
                  entry Hin)).
Defined.

(** X15, witness: a file name with a comma and a double quote. *)
Lemma quoted_cell_reads_back_witness :
  let logData : gmap string (@jsval exact_number) :=
    {[ "csv_filename" := VString ("a,b" ++ String dquote "c") ]} in
  logData !! "csv_filename" = Some (VString ("a,b" ++ String dquote "c"))
  /\ csv_cell logData "csv_filename" =
       String dquote ("a,b" ++ String dquote (String dquote "c")) ++ String dquote ""
  /\ unquote (csv_cell logData "csv_filename") = "a,b" ++ String dquote "c".
Proof.
  intros logData. split; [reflexivity|]. split; [reflexivity|].
  exact (proj1 (quoted_cell_reads_back logData "csv_filename"
                  ("a,b" ++ String dquote "c") eq_refl)).
Defined.
